(** * Ingestion and adaptive buffering pipeline: model and verification

    Shallow embedding of the core of the repository:
    - [src/mqtthandler.py]   : [MQTTWorker] (connect/retry loop, payload decoder);
    - [src/publish.py]       : [MQTTPublisher] (the encoder used by the sender);
    - [src/features/time_view.py] : [TimeViewFeature] (rate estimator,
      channel demultiplexer, ring buffers, tick generator, recording controller).

    Python floats are IEEE-754 binary64 numbers; they are modelled with the
    executable specification [SpecFloat] of the standard library, so every
    definition below evaluates to exactly the value the interpreter computes. *)

From Stdlib Require Import ZArith List Bool Lia String Ascii Strings.Byte.
From Stdlib Require Import Floats.SpecFloat.
From Stdlib Require Import DecimalString DecimalZ DecimalPos.
Import ListNotations.
Open Scope Z_scope.

(** ** Python floats (binary64) *)

Module PyFloat.

Definition prec : Z := 53.
Definition emax : Z := 1024.

Definition float : Type := spec_float.

(** [float(z)] for a Python int (exact below 2^53, rounded to nearest even
    above). *)
Definition of_int (z : Z) : float := binary_normalize prec emax z 0 false.

Definition add : float -> float -> float := SFadd prec emax.
Definition sub : float -> float -> float := SFsub prec emax.
Definition mul : float -> float -> float := SFmul prec emax.
Definition div : float -> float -> float := SFdiv prec emax.

Definition eqb : float -> float -> bool := SFeqb.
Definition ltb : float -> float -> bool := SFltb.
Definition leb : float -> float -> bool := SFleb.
(** [x > y] *)
Definition gtb (x y : float) : bool := SFltb y x.
(** [x != y] (true when either side is a NaN) *)
Definition neqb (x y : float) : bool := negb (SFeqb x y).

(** [np.isfinite] *)
Definition isfinite (x : float) : bool :=
  match x with
  | S754_zero _ | S754_finite _ _ _ => true
  | S754_infinity _ | S754_nan => false
  end.

(** [np.floor]: exact, keeps the sign of the argument on a zero result. *)
Definition floor (x : float) : float :=
  match x with
  | S754_finite s m e =>
      if 0 <=? e then x
      else binary_normalize prec emax
             (Z.shiftr (cond_Zopp s (Zpos m)) (- e)) 0 s
  | _ => x
  end.

(** [np.ceil] *)
Definition ceil (x : float) : float :=
  match x with
  | S754_finite s m e =>
      if 0 <=? e then x
      else binary_normalize prec emax
             (- Z.shiftr (cond_Zopp (negb s) (Zpos m)) (- e)) 0 s
  | _ => x
  end.

(** [int(x)]: truncation toward zero; [None] stands for the exception
    Python raises on an infinity ([OverflowError]) or a NaN ([ValueError]). *)
Definition to_int (x : float) : option Z :=
  match x with
  | S754_zero _ => Some 0
  | S754_finite s m e =>
      Some (if 0 <=? e then cond_Zopp s (Zpos m * 2 ^ e)
            else Z.quot (cond_Zopp s (Zpos m)) (2 ^ (- e)))
  | S754_infinity _ | S754_nan => None
  end.

(** Literals of the source. *)
Definition f0_1 : float := Eval vm_compute in div (of_int 1) (of_int 10).
Definition f0_5 : float := Eval vm_compute in div (of_int 1) (of_int 2).
Definition f1_0 : float := Eval vm_compute in of_int 1.

(** Built-in [max(values)] and [min(values)] on a non-empty list: the first
    element is the candidate, a later one replaces it when it compares
    strictly greater (resp. smaller). *)
Definition py_max (x : float) (xs : list float) : float :=
  fold_left (fun best v => if gtb v best then v else best) xs x.
Definition py_min (x : float) (xs : list float) : float :=
  fold_left (fun best v => if ltb v best then v else best) xs x.

(** [signed s x]: [x] is a zero, a finite number or an infinity of sign
    [s] ([true] is the minus sign). *)
Definition signed (s : bool) (x : float) : Prop :=
  match x with
  | S754_zero s' | S754_infinity s' | S754_finite s' _ _ => s' = s
  | S754_nan => False
  end.

(** Two-argument [max(a, b)]: [b] wins only when [b > a]. *)
Definition max2 (a b : float) : float := if gtb b a then b else a.

(** [round(x)] to an int: nearest integer, ties to the even one; [None]
stands for the exception raised on an infinity or a NaN. *)
Definition py_round (x : float) : option Z :=
match x with
| S754_zero _ => Some 0
| S754_finite s m e =>
if 0 <=? e then Some (cond_Zopp s (Zpos m * 2 ^ e))
else
let d := 2 ^ (- e) in
let q := Zpos m / d in
let r := Zpos m mod d in
let n := if 2 * r <? d then q
else if d <? 2 * r then q + 1
else if Z.even q then q else q + 1 in
Some (cond_Zopp s n)
| S754_infinity _ | S754_nan => None
end.

(** [math.pi] *)
Definition pi : float := S754_finite false 7074237752028440 (-51).

End PyFloat.

(** ** Text helpers: [str(int)], [repr] of a list of ints *)

Module PyStr.
Open Scope string_scope.

Definition str_int (z : Z) : string := NilZero.string_of_int (Z.to_int z).

Fixpoint join (sep : string) (l : list string) : string :=
  match l with
  | [] => ""
  | [s] => s
  | s :: rest => s ++ sep ++ join sep rest
  end.

Definition repr_int_list (l : list Z) : string :=
  "[" ++ join ", " (map str_int l) ++ "]".

(** Truthiness of a string: the empty string is false. *)
Definition truthy (s : string) : bool :=
  match s with EmptyString => false | _ => true end.

End PyStr.

(** ** [struct.pack] / [struct.unpack] with the format [f"{n}H"] *)

Module Struct.

(** The format has no byte-order prefix, so the host's order is used; it is
    fixed for a deployment and a parameter here. *)
Inductive byte_order := LittleEndian | BigEndian.

Definition byte_val (b : byte) : Z := Z.of_N (Byte.to_N b).

Definition byte_of_Z (z : Z) : byte :=
  match Byte.of_N (Z.to_N z) with
  | Some b => b
  | None => x00
  end.

Definition word_of (o : byte_order) (b0 b1 : byte) : Z :=
  match o with
  | LittleEndian => byte_val b0 + 256 * byte_val b1
  | BigEndian => 256 * byte_val b0 + byte_val b1
  end.

Definition bytes_of (o : byte_order) (v : Z) : list byte :=
  match o with
  | LittleEndian => [byte_of_Z (v mod 256); byte_of_Z (v / 256)]
  | BigEndian => [byte_of_Z (v / 256); byte_of_Z (v mod 256)]
  end.

Fixpoint unpack_words (o : byte_order) (buffer : list byte) : option (list Z) :=
  match buffer with
  | [] => Some []
  | b0 :: b1 :: rest =>
      match unpack_words o rest with
      | Some vs => Some (word_of o b0 b1 :: vs)
      | None => None
      end
  | [_] => None
  end.

(** [struct.unpack(f"{n}H", buffer)]; [None] is [struct.error] (the buffer
    is not exactly [2*n] bytes long). *)
Definition unpack_H (o : byte_order) (n : nat) (buffer : list byte)
  : option (list Z) :=
  if Nat.eqb (List.length buffer) (2 * n)%nat then unpack_words o buffer else None.

Fixpoint pack_words (o : byte_order) (values : list Z) : option (list byte) :=
  match values with
  | [] => Some []
  | v :: rest =>
      if (0 <=? v) && (v <=? 65535) then
        match pack_words o rest with
        | Some bs => Some (bytes_of o v ++ bs)
        | None => None
        end
      else None
  end.

(** [struct.pack(f"{n}H", *values)]; [None] is [struct.error] (wrong number
    of arguments, or an argument outside 0..65535). *)
Definition pack_H (o : byte_order) (n : nat) (values : list Z)
  : option (list byte) :=
  if Nat.eqb (List.length values) n then pack_words o values else None.

End Struct.

(** ** [MQTTPublisher] ([src/publish.py]) *)

Module MQTTPublisher.

(** Line 40 of [publish_message]:
    [binary_message = struct.pack(f"{len(values)}H", *values)]. *)
Definition binary_message (o : Struct.byte_order) (values : list Z)
  : option (list byte) :=
  Struct.pack_H o (List.length values) values.

(** *** [publish_message] *)

Import PyFloat PyStr.

Record publisher := mk_publisher {
broker : string;
topics : list string;
count : Z;
frequency : Z;
amplitude : float;
offset : float;
sample_rate : Z;
current_time : float;
timer_active : bool
}.

Inductive effect :=
| Publish (topic : string) (payload : list byte) (hostname : string) (qos : Z)
| LogDebug (msg : string)
| LogInfo (msg : string)
| LogError (msg : string)
| TimerStop.

(** How a call ends: it returns, or an exception leaves it. *)
Inductive outcome := Returned | Raised.

(** [__init__]; [topics] is already a list. *)
Definition init (broker : string) (topics : list string) : publisher :=
mk_publisher broker topics 0 10
(div (of_int (46537 - 16390)) (of_int 2))
(div (of_int (46537 + 16390)) (of_int 2))
16384 (of_int 0) true.

Definition set_current_time (p : publisher) (t : float) : publisher :=
mk_publisher (broker p) (topics p) (count p) (frequency p) (amplitude p)
(offset p) (sample_rate p) t (timer_active p).
Definition set_count (p : publisher) (c : Z) : publisher :=
mk_publisher (broker p) (topics p) c (frequency p) (amplitude p)
(offset p) (sample_rate p) (current_time p) (timer_active p).
Definition set_timer_active (p : publisher) (a : bool) : publisher :=
mk_publisher (broker p) (topics p) (count p) (frequency p) (amplitude p)
(offset p) (sample_rate p) (current_time p) a.

(** One pass of the loop that fills [values]; [sin] is [math.sin]. *)
Definition sample (sin : float -> float) (p : publisher) (i : Z) : option Z :=
let t := add (current_time p) (div (of_int i) (of_int (sample_rate p))) in
let value :=
add (offset p)
(mul (amplitude p)
(sin (mul (mul (mul (of_int 2) pi) (of_int (frequency p))) t))) in
py_round value.

Fixpoint samples_from (sin : float -> float) (p : publisher)
(indices : list nat) : option (list Z) :=
match indices with
| [] => Some []
| i :: rest =>
match sample sin p (Z.of_nat i) with
| None => None
| Some v =>
match samples_from sin p rest with
| None => None
| Some vs => Some (v :: vs)
end
end
end.

(** The outcomes of [publish.single] for one topic: the call is made, then
logged as published or as failed. *)
Definition publish_to (single : string -> list byte -> option string)
(p : publisher) (n_values : nat) (payload : list byte) (topic : string)
: list effect :=
[Publish topic payload (broker p) 1;
match single topic payload with
| None =>
LogInfo ("[" ++ str_int (count p) ++ "] Published to " ++ topic ++ ": "
++ str_int (Z.of_nat n_values) ++ " uint16_t values")
| Some e => LogError ("Failed to publish to " ++ topic ++ ": " ++ e)
end].

(** [publish_message()]; [single topic payload] is what [publish.single]
does: [None] when it returns, [Some e] when it raises. *)
Definition publish_message (o : Struct.byte_order)
(sin : float -> float) (single : string -> list byte -> option string)
(p : publisher) : publisher * list effect * outcome :=
if Z.ltb (count p) 200 then
match samples_from sin p (seq 0 (Z.to_nat (sample_rate p))) with
| None => (p, [], Raised)
| Some values =>
let p1 := set_current_time p (add (current_time p) (of_int 1)) in
match binary_message o values with
| None => (p1, [], Raised)
| Some payload =>
(set_count p1 (count p1 + 1),
(LogDebug ("Generated " ++ str_int (Z.of_nat (List.length values))
++ " values, binary size: "
++ str_int (Z.of_nat (List.length payload)) ++ " bytes")
:: flat_map (publish_to single p1 (List.length values) payload) (topics p1))%list,
Returned)
end
end
else
(set_timer_active p false,
[TimerStop; LogInfo "Publishing stopped after 200 message."],
Returned).

(** [n] expiries of the one-second timer; a stopped timer no longer fires. *)
Fixpoint ticks (o : Struct.byte_order)
(sin : float -> float) (single : string -> list byte -> option string)
(n : nat) (p : publisher) : publisher * list effect :=
match n with
| O => (p, [])
| S n' =>
if timer_active p then
let '(p1, e1, _) := publish_message o sin single p in
let (p2, e2) := ticks o sin single n' p1 in
(p2, e1 ++ e2)%list
else (p, [])
end.


End MQTTPublisher.

(** ** [MQTTWorker] ([src/mqtthandler.py]) *)

Module MQTTWorker.
Import Struct PyStr.
Open Scope string_scope.

Inductive signal :=
| data_received (tag_name : string) (values : list Z)
| connected
| connection_failed (reason : string)
| stopped.

Inductive log_level := DEBUG | INFO | WARNING | ERROR.

(** What a method does to the outside world, in program order. *)
Inductive effect :=
| Log (lvl : log_level) (msg : string)
| Emit (s : signal)
| Connect (broker : string) (port : Z)
| Sleep (seconds : Z)
| UpdateTagValue (project tag : string) (values : list Z) (timestamp : string).

Record worker := mk_worker {
  project_name : string;
  broker : string;
  port : Z;
  running : bool
}.

(** [self.retry_interval], set in [__init__] and never reassigned. *)
Definition retry_interval : Z := 5.

Definition init (project : string) : worker :=
  mk_worker project "192.168.1.173" 1883 false.

Record message := mk_message { topic : string; payload : list byte }.

Inductive exn :=
| ValueError (msg : string)
| StructError (msg : string).

Definition str_exn (e : exn) : string :=
  match e with ValueError m | StructError m => m end.

Definition size_error : exn :=
  ValueError "Payload size is not a multiple of 2, cannot unpack as uint16_t".
Definition empty_error : exn := ValueError "Empty or invalid payload".

(** The decoding part of the [try] block of [on_message] (lines 97-105):
    the log lines it writes, and the samples or the exception raised. *)
Definition decode_payload (o : byte_order) (payload : list byte)
  : list effect * (exn + list Z) :=
  if negb (Nat.eqb (List.length payload mod 2) 0) then ([], inl size_error)
  else
    match unpack_H o (List.length payload / 2) payload with
    | None =>
        ([], inl (StructError
                    ("unpack requires a buffer of "
                     ++ str_int (2 * Z.of_nat (List.length payload / 2))
                     ++ " bytes")))
    | Some values =>
        let log := Log DEBUG ("First 5 values: " ++ repr_int_list (firstn 5 values)) in
        match values with
        | [] => ([log], inl empty_error)
        | _ :: _ => ([log], inr values)
        end
    end.

(** Outcome of the storage call [self.db.update_tag_value(...)], an external
    collaborator: it returns [(success, message)] or raises. *)
Inductive db_result :=
| Returns (success : bool) (message : string)
| Raises (err : string).

Definition on_message (o : byte_order) (w : worker)
    (update_tag_value : string -> string -> list Z -> string -> db_result)
    (now_iso : string) (msg : message) : list effect :=
  let topic := topic msg in
  let payload := payload msg in
  Log DEBUG ("Received message on " ++ topic ++ ", payload size: "
             ++ str_int (Z.of_nat (List.length payload)) ++ " bytes")
  :: match decode_payload o payload with
     | (logs, inl (StructError se)) =>
         (logs ++ [Log ERROR ("Failed to unpack binary data on " ++ topic ++ ": " ++ se)])%list
     | (logs, inl (ValueError e)) =>
         (logs ++ [Log ERROR ("Error processing message on " ++ topic ++ ": " ++ e)])%list
     | (logs, inr values) =>
         let tag_name := topic in
         let timestamp := now_iso in
         app logs
         (UpdateTagValue (project_name w) tag_name values timestamp
         :: match update_tag_value (project_name w) tag_name values timestamp with
            | Returns true _ =>
                [Log INFO ("Stored " ++ str_int (Z.of_nat (List.length values))
                           ++ " values for " ++ tag_name);
                 Emit (data_received tag_name values)]
            | Returns false message =>
                [Log ERROR ("Failed to store values: " ++ message)]
            | Raises e =>
                [Log ERROR ("Error processing message on " ++ topic ++ ": " ++ e)]
            end)
     end.

(** *** [connect_with_retry]

    [connect_outcome k] is what [self.client.connect] does when it is
    called with the counter [attempt] equal to [k]: [None] when it
    returns, [Some e] when it raises an exception whose text is [e].
    [running_at k] is the value [self.running] has when the loop
    condition is evaluated with [attempt = k] ([stop] may clear the flag
    while the loop sleeps). *)
Definition max_retries : Z := 3.

Fixpoint retry_loop (w : worker)
    (connect_outcome : Z -> option string) (running_at : Z -> bool)
    (fuel : nat) (attempt : Z) : option (list effect) :=
  match fuel with
  | O => None
  | S fuel' =>
      if running_at attempt && Z.ltb attempt max_retries then
        match connect_outcome attempt with
        | None =>
            Some [Connect (broker w) (port w);
                  Log INFO ("Connected to MQTT broker at " ++ broker w ++ ":"
                            ++ str_int (port w));
                  Emit connected]
        | Some e =>
            let attempt := attempt + 1 in
            let failed :=
              [Connect (broker w) (port w);
               Log ERROR ("Failed to connect to MQTT broker (attempt "
                          ++ str_int attempt ++ "/" ++ str_int max_retries
                          ++ "): " ++ e)] in
            if Z.ltb attempt max_retries then
              match retry_loop w connect_outcome running_at fuel' attempt with
              | Some rest => Some (failed ++ Sleep retry_interval :: rest)%list
              | None => None
              end
            else
              Some (failed ++
                    [Emit (connection_failed
                             ("Failed to connect to MQTT broker after "
                              ++ str_int max_retries ++ " attempts: " ++ e))])%list
        end
      else Some []
  end.

Definition connect_with_retry (w : worker)
    (connect_outcome : Z -> option string) (running_at : Z -> bool)
    (fuel : nat) : option (list effect) :=
  retry_loop w connect_outcome running_at fuel 0.

(** Observations on a trace. *)
Definition is_attempt (e : effect) : bool :=
  match e with Connect _ _ => true | _ => false end.
Definition is_sleep (e : effect) : bool :=
  match e with Sleep _ => true | _ => false end.
Definition is_failed (e : effect) : bool :=
  match e with Emit (connection_failed _) => true | _ => false end.
Definition is_connected (e : effect) : bool :=
  match e with Emit connected => true | _ => false end.
Definition is_data (e : effect) : bool :=
  match e with Emit (data_received _ _) => true | _ => false end.
Definition is_update (e : effect) : bool :=
  match e with UpdateTagValue _ _ _ _ => true | _ => false end.

Definition count (p : effect -> bool) (t : list effect) : nat :=
  List.length (filter p t).

Definition is_log (e : effect) : Prop := exists lvl m, e = Log lvl m.

(** The connection attempts and the waits of a trace, in order. *)
Definition schedule (t : list effect) : list effect :=
  filter (fun e => is_attempt e || is_sleep e) t.

(** Three attempts separated by two waits of five seconds. *)
Definition full_schedule (w : worker) : list effect :=
  [Connect (broker w) (port w); Sleep 5;
   Connect (broker w) (port w); Sleep 5;
   Connect (broker w) (port w)].

(** *** Life cycle: [start], [stop], [on_connect], [subscribe_to_topics] *)

(** The worker together with [self.subscribed_topics]; the set is kept as the
list of its members (only membership is ever asked). *)
Record instance := mk_instance {
base : worker;
subscribed_topics : list string
}.

Definition set_running (i : instance) (r : bool) : instance :=
mk_instance
(mk_worker (project_name (base i)) (broker (base i)) (port (base i)) r)
(subscribed_topics i).

(** Calls on the client that the traces above do not record, next to the
effects already described. *)
Inductive call :=
| Do (e : effect)
| Subscribe (topic : string) (qos : Z)
| LoopStart
| LoopStop
| Disconnect.

(** [topic in self.subscribed_topics] *)
Definition subscribed (i : instance) (topic : string) : bool :=
existsb (String.eqb topic) (subscribed_topics i).

(** One iteration of the loop of [subscribe_to_topics]. *)
Definition subscribe_one (acc : instance * list call) (topic : string)
: instance * list call :=
let (i, trace) := acc in
if negb (subscribed i topic) then
(mk_instance (base i) (topic :: subscribed_topics i),
(trace ++ [Subscribe topic 1;
Do (Log INFO ("Subscribed to topic: " ++ topic))])%list)
else acc.

(** [subscribe_to_topics()]; [tags] are the [tag_name] fields of the
documents the tag collection returns for the project. *)
Definition subscribe_to_topics (i : instance) (tags : list string)
: instance * list call :=
match tags with
| [] => (i, [Do (Log WARNING ("No tags found for project "
++ project_name (base i)))])
| _ :: _ => fold_left subscribe_one tags (i, [])
end.

(** [on_connect(client, userdata, flags, rc)] *)
Definition on_connect (i : instance) (tags : list string) (rc : Z)
: instance * list call :=
if Z.eqb rc 0 then
let (i', trace) := subscribe_to_topics i tags in
(i', (Do (Log INFO ("Connected to MQTT broker with result code " ++ str_int rc))
:: trace ++ [Do (Emit connected)])%list)
else
(i, [Do (Log ERROR ("Connection failed with result code " ++ str_int rc));
Do (Emit (connection_failed
("Connection failed with result code " ++ str_int rc)))]).

(** [start()]; the trace is [None] when the retry loop runs out of fuel. *)
Definition start (i : instance)
(connect_outcome : Z -> option string) (running_at : Z -> bool) (fuel : nat)
: instance * option (list call) :=
if negb (running (base i)) then
let i := set_running i true in
match connect_with_retry (base i) connect_outcome running_at fuel with
| Some trace =>
(i, Some (map Do trace ++
[LoopStart; Do (Log INFO "MQTT worker loop started")])%list)
| None => (i, None)
end
else (i, Some []).

(** [stop()] *)
Definition stop (i : instance) : instance * list call :=
if running (base i) then
let i := set_running i false in
(mk_instance (base i) [],
[LoopStop; Disconnect;
Do (Log INFO "MQTT worker loop stopped and client disconnected");
Do (Emit stopped)])
else (i, []).

Definition is_subscribe (c : call) : bool :=
match c with Subscribe _ _ => true | _ => false end.

Definition subscriptions (t : list call) : list string :=
flat_map (fun c => match c with Subscribe topic _ => [topic] | _ => [] end) t.

Definition emissions (t : list call) : list signal :=
flat_map (fun c => match c with Do (Emit s) => [s] | _ => [] end) t.

End MQTTWorker.

(** ** [collections.deque] with a [maxlen] *)

Module Deque.

Record deque (A : Type) := mk_deque { items : list A; maxlen : Z }.
Arguments mk_deque {A} _ _.
Arguments items {A} _.
Arguments maxlen {A} _.

(** Keep the [cap] most recent elements (ring eviction from the left). *)
Definition trim {A} (cap : Z) (l : list A) : list A :=
  skipn (List.length l - Z.to_nat cap) l.

Definition append {A} (d : deque A) (x : A) : deque A :=
  mk_deque (trim (maxlen d) (items d ++ [x])) (maxlen d).

(** [d.extend(xs)] appends the elements one at a time. *)
Definition extend {A} (d : deque A) (xs : list A) : deque A :=
  fold_left append xs d.

(** [deque(iterable, maxlen=cap)] *)
Definition make {A} (iterable : list A) (cap : Z) : deque A :=
  extend (mk_deque [] cap) iterable.

Definition clear {A} (d : deque A) : deque A := mk_deque [] (maxlen d).

(** The class invariant of a bounded deque. *)
Definition wf {A} (d : deque A) : Prop :=
  (List.length (items d) <= Z.to_nat (maxlen d))%nat.

(** What [append] does in CPython: push on the right, then pop one element
    from the left when the bound is exceeded. *)
Definition append_popleft {A} (d : deque A) (x : A) : deque A :=
  let l := items d ++ [x] in
  mk_deque (if Z.of_nat (List.length l) >? maxlen d then tl l else l) (maxlen d).

End Deque.

(** ** [TimeViewFeature] ([src/features/time_view.py]) *)

Module TimeViewFeature.
Import PyFloat PyStr Deque.
Open Scope string_scope.

(** [self.time_view_buffers]: the list built in [__init__] always holds
    exactly four deques, addressed by the constant indices 0..3. *)
Record buffers := mk_buffers {
  buf0 : deque float;
  buf1 : deque float;
  buf2 : deque float;
  buf3 : deque float
}.

(** The document [message_data] handed to the storage collaborator. *)
Record frame := mk_frame {
  f_project_name : string;
  f_topic : option string;
  f_filename : string;
  f_frameIndex : Z;
  f_numberOfChannels : Z;
  f_samplingRate : option float;
  f_samplingSize : Z;
  f_messageFrequency : option float;
  f_slots : list string;
  f_message : list float;
  f_createdAt : string
}.

Inductive effect :=
| Warning (title text : string)
| Information (title text : string)
| SaveTimeviewMessage (project : string) (f : frame).

Record state := mk_state {
  project_name : string;
  mqtt_tag : option string;
  time_view_buffers : buffers;
  time_view_timestamps : deque string;
  last_data_time : option Z;      (* instant of the last arrival, in microseconds *)
  data_rate : float;
  is_saving : bool;
  frame_index : Z;
  filename_counter : Z;
  start_save_enabled : bool;
  stop_save_enabled : bool;
  time_result : list string       (* lines of the status box *)
}.

Definition set_mqtt_tag (st : state) (v : option string) : state :=
  mk_state (project_name st) v (time_view_buffers st) (time_view_timestamps st)
    (last_data_time st) (data_rate st) (is_saving st) (frame_index st)
    (filename_counter st) (start_save_enabled st) (stop_save_enabled st)
    (time_result st).
Definition set_buffers (st : state) (b : buffers) (ts : deque string) : state :=
  mk_state (project_name st) (mqtt_tag st) b ts
    (last_data_time st) (data_rate st) (is_saving st) (frame_index st)
    (filename_counter st) (start_save_enabled st) (stop_save_enabled st)
    (time_result st).
Definition set_last_data_time (st : state) (v : option Z) : state :=
  mk_state (project_name st) (mqtt_tag st) (time_view_buffers st)
    (time_view_timestamps st) v (data_rate st) (is_saving st) (frame_index st)
    (filename_counter st) (start_save_enabled st) (stop_save_enabled st)
    (time_result st).
Definition set_data_rate (st : state) (v : float) : state :=
  mk_state (project_name st) (mqtt_tag st) (time_view_buffers st)
    (time_view_timestamps st) (last_data_time st) v (is_saving st)
    (frame_index st) (filename_counter st) (start_save_enabled st)
    (stop_save_enabled st) (time_result st).
Definition set_is_saving (st : state) (v : bool) : state :=
  mk_state (project_name st) (mqtt_tag st) (time_view_buffers st)
    (time_view_timestamps st) (last_data_time st) (data_rate st) v
    (frame_index st) (filename_counter st) (start_save_enabled st)
    (stop_save_enabled st) (time_result st).
Definition set_frame_index (st : state) (v : Z) : state :=
  mk_state (project_name st) (mqtt_tag st) (time_view_buffers st)
    (time_view_timestamps st) (last_data_time st) (data_rate st) (is_saving st)
    v (filename_counter st) (start_save_enabled st)
    (stop_save_enabled st) (time_result st).
Definition set_filename_counter (st : state) (v : Z) : state :=
  mk_state (project_name st) (mqtt_tag st) (time_view_buffers st)
    (time_view_timestamps st) (last_data_time st) (data_rate st) (is_saving st)
    (frame_index st) v (start_save_enabled st)
    (stop_save_enabled st) (time_result st).
Definition set_buttons (st : state) (start stop : bool) : state :=
  mk_state (project_name st) (mqtt_tag st) (time_view_buffers st)
    (time_view_timestamps st) (last_data_time st) (data_rate st) (is_saving st)
    (frame_index st) (filename_counter st) start stop (time_result st).
(** [self.time_result.setText(s)] and [self.time_result.append(s)] *)
Definition setText (st : state) (s : string) : state :=
  mk_state (project_name st) (mqtt_tag st) (time_view_buffers st)
    (time_view_timestamps st) (last_data_time st) (data_rate st) (is_saving st)
    (frame_index st) (filename_counter st) (start_save_enabled st)
    (stop_save_enabled st) [s].
Definition appendText (st : state) (s : string) : state :=
  mk_state (project_name st) (mqtt_tag st) (time_view_buffers st)
    (time_view_timestamps st) (last_data_time st) (data_rate st) (is_saving st)
    (frame_index st) (filename_counter st) (start_save_enabled st)
    (stop_save_enabled st) (time_result st ++ [s])%list.

Definition initial_buffer_size : Z := 4096.

(** The fields assigned by [__init__]; [initUI] disables the stop button
    and writes the first status text. *)
Definition init (project : string) : state :=
  mk_state project None
    (mk_buffers (mk_deque [] initial_buffer_size) (mk_deque [] initial_buffer_size)
                (mk_deque [] initial_buffer_size) (mk_deque [] initial_buffer_size))
    (mk_deque [] (initial_buffer_size * 4))
    None f1_0 false 0 1 true false
    ["Time View for " ++ project ++ ": Select a tag to start real-time plotting."
     ++ String (ascii_of_nat 10) ""
     ++ "Click 'Start Saving' to save data to database with auto-generated filename."].

Definition no_tags : string := "No Tags Available".

(** [not self.mqtt_tag or self.mqtt_tag == "No Tags Available"] *)
Definition invalid_tag (t : option string) : bool :=
  match t with
  | None => true
  | Some s => negb (truthy s) || String.eqb s no_tags
  end.

Definition filename_of (counter : Z) : string := "data" ++ str_int counter.

Definition tag_text (t : option string) : string :=
  match t with None => "None" | Some s => s end.

Definition start_saving (st : state) : state * list effect :=
  if invalid_tag (mqtt_tag st) then
    (setText st "Error: Please select a valid tag!",
     [Warning "Error" "Please select a valid tag!"])
  else
    let filename := filename_of (filename_counter st) in
    let st := set_is_saving st true in
    let st := set_frame_index st 0 in
    let st := set_buttons st false true in
    let text := "Started saving data for " ++ tag_text (mqtt_tag st) ++ " to " ++ filename in
    (setText st text, [Information "Success" text]).

Definition stop_saving (st : state) : state * list effect :=
  let st := set_is_saving st false in
  let st := set_buttons st true false in
  let st := set_filename_counter st (filename_counter st + 1) in
  let text := "Stopped saving data for " ++ tag_text (mqtt_tag st) in
  (setText st text, [Information "Success" text]).

Definition clear_buffers (b : buffers) : buffers :=
  mk_buffers (clear (buf0 b)) (clear (buf1 b)) (clear (buf2 b)) (clear (buf3 b)).

Definition setup_time_view_plot (st : state) (tag_name : string) : state :=
  if negb (truthy (project_name st)) || negb (truthy tag_name)
     || String.eqb tag_name no_tags then
    setText st "No project or valid tag selected for Time View."
  else
    let st := set_mqtt_tag st (Some tag_name) in
    let st := set_buffers st (clear_buffers (time_view_buffers st))
                (clear (time_view_timestamps st)) in
    let st := set_last_data_time st None in
    let st := set_data_rate st f1_0 in
    let st := set_is_saving st false in
    let st := set_buttons st true false in
    let st := set_frame_index st 0 in
    setText st ("Plotting real-time data for " ++ tag_name
                ++ ". Click 'Start Saving' to save to database.").

(** [range(start, stop, step)] for non-negative arguments and [step >= 1]. *)
Fixpoint range_from (fuel start stop step : nat) : list nat :=
  match fuel with
  | O => []
  | S fuel' =>
      if (start <? stop)%nat
      then start :: range_from fuel' (start + step)%nat stop step
      else []
  end.
Definition range (start stop step : nat) : list nat :=
  range_from stop start stop step.

Definition max_values : nat := 4096 * 4.

(** One iteration of the loop of [split_and_store_values]. The guard
    [i + 3 < len(values)] keeps the four subscripts in range. *)
Definition store_group (values : list float) (timestamp : string)
    (acc : buffers * deque string) (i : nat) : buffers * deque string :=
  let (b, ts) := acc in
  if (i + 3 <? List.length values)%nat then
    (mk_buffers (append (buf0 b) (nth i values (S754_zero false)))
                (append (buf1 b) (nth (i + 1) values (S754_zero false)))
                (append (buf2 b) (nth (i + 2) values (S754_zero false)))
                (append (buf3 b) (nth (i + 3) values (S754_zero false))),
     extend ts (repeat timestamp 4))
  else acc.

(** [split_and_store_values(values, timestamp)]. [values] are the Python
    ints the worker decoded, so [float(v)] never raises and the [except]
    branch is not taken. [save_timeview_message] is the storage
    collaborator, returning [(success, msg)]. *)
Definition split_and_store_values
    (save_timeview_message : string -> frame -> bool * string)
    (st : state) (values : list Z) (timestamp : string) : state * list effect :=
  let values := map of_int values in
  let (b, ts) :=
    fold_left (store_group values timestamp)
      (range 0 (Nat.min (List.length values) max_values) 4)
      (time_view_buffers st, time_view_timestamps st) in
  let st := set_buffers st b ts in
  if is_saving st then
    let filename := filename_of (filename_counter st) in
    let message_data :=
      mk_frame (project_name st) (mqtt_tag st) filename (frame_index st) 4
        (if gtb (data_rate st) (of_int 0) then Some (data_rate st) else None)
        16
        (if gtb (data_rate st) (of_int 0)
         then Some (div (data_rate st) (of_int 4)) else None)
        ["channel1"; "channel2"; "channel3"; "channel4"]
        (firstn (Nat.min (List.length values) max_values) values)
        timestamp in
    let (success, msg) := save_timeview_message (project_name st) message_data in
    if success then
      let st := set_frame_index st (frame_index st + 1) in
      (appendText st ("Saved frame " ++ str_int (frame_index st - 1)
                      ++ " to " ++ filename),
       [SaveTimeviewMessage (project_name st) message_data])
    else
      (setText st ("Error saving data: " ++ msg),
       [SaveTimeviewMessage (project_name st) message_data])
  else (st, []).

(** [(current_time - self.last_data_time).total_seconds()]: instants are
    counted in microseconds. *)
Definition total_seconds (microseconds : Z) : float :=
  div (of_int microseconds) (of_int 1000000).

(** [tag_name != self.mqtt_tag] *)
Definition other_tag (tag_name : string) (t : option string) : bool :=
  match t with
  | None => true
  | Some s => negb (String.eqb tag_name s)
  end.

(** [on_data_received(tag_name, values)]; [now] is what [datetime.now()]
    returns and [isoformat] renders an instant as text. *)
Definition on_data_received
    (save_timeview_message : string -> frame -> bool * string)
    (isoformat : Z -> string)
    (st : state) (tag_name : string) (values : list Z) (now : Z)
  : state * list effect :=
  if other_tag tag_name (mqtt_tag st) then (st, [])
  else
    let current_time := now in
    let st :=
      match last_data_time st with
      | Some last =>
          let time_delta := total_seconds (current_time - last) in
          if gtb time_delta (of_int 0) then
            set_data_rate st
              (div (div (of_int (Z.of_nat (List.length values))) time_delta)
                   (of_int 4))
          else st
      | None => st
      end in
    let st := set_last_data_time st (Some current_time) in
    split_and_store_values save_timeview_message st values (isoformat current_time).

Definition resize_buffers (b : buffers) (cap : Z) : buffers :=
  mk_buffers (make (items (buf0 b)) cap) (make (items (buf1 b)) cap)
             (make (items (buf2 b)) cap) (make (items (buf3 b)) cap).

(** [adjust_buffer_size()]; [None] when [int(...)] raises. *)
Definition adjust_buffer_size (st : state) : option state :=
  let window_size := f1_0 in
  if gtb (data_rate st) (of_int 0) then
    match to_int (mul (mul (data_rate st) window_size) (of_int 2)) with
    | None => None
    | Some n =>
        let new_buffer_size := Z.max n 100 in
        if negb (Z.eqb new_buffer_size (maxlen (buf0 (time_view_buffers st)))) then
          Some (set_buffers st
                  (resize_buffers (time_view_buffers st) new_buffer_size)
                  (make (items (time_view_timestamps st)) (new_buffer_size * 4)))
        else Some st
    end
  else Some st.

(** [np.arange(start, stop, step)] on ints, [step >= 1]. *)
Definition arange (start stop step : Z) : list Z :=
  map (fun k => start + Z.of_nat k * step)
      (seq 0 (Z.to_nat ((stop - start + step - 1) / step))).

(** The [while current <= y_max] loop of [generate_y_ticks]; [None] when
    the fuel runs out before the loop exits. *)
Fixpoint tick_loop (fuel : nat) (current step y_max : float) : option (list float) :=
  match fuel with
  | O => None
  | S fuel' =>
      if leb current y_max then
        match tick_loop fuel' (add current step) step y_max with
        | Some ticks => Some (current :: ticks)
        | None => None
        end
      else Some []
  end.

Definition generate_y_ticks (fuel : nat) (values : list float) : option (list float) :=
  match values with
  | [] => Some (map of_int (arange 0 100 10))
  | v :: vs =>
      if negb (forallb isfinite values) then Some (map of_int (arange 0 100 10))
      else
        let y_max := py_max v vs in
        let y_min := py_min v vs in
        let padding :=
          if neqb y_max y_min then mul (sub y_max y_min) f0_1 else of_int 1 in
        let y_max := add y_max padding in
        let y_min := sub y_min padding in
        let range_val := sub y_max y_min in
        let step := max2 (div range_val (of_int 10)) (of_int 1) in
        let step := mul (ceil (div step f0_5)) f0_5 in
        let current := mul (floor (div y_min step)) step in
        tick_loop fuel current step y_max
  end.

(** The per-channel body of the loop of [update_time_view_plot] that sets
    the y axis (lines 376-389): the limits and the ticks it installs. *)
Definition update_y_axis (fuel : nat) (window_values : list float)
  : option ((float * float) * list float) :=
  match window_values with
  | [] =>
      option_map (pair (of_int 0, of_int 100)) (generate_y_ticks fuel [])
  | v :: vs =>
      if negb (forallb isfinite window_values) then
        option_map (pair (of_int 0, of_int 100)) (generate_y_ticks fuel [])
      else
        let y_max := py_max v vs in
        let y_min := py_min v vs in
        let padding :=
          if neqb y_max y_min then mul (sub y_max y_min) f0_1 else of_int 1 in
        option_map (pair (sub y_min padding, add y_max padding))
                   (generate_y_ticks fuel window_values)
  end.

(** *** Scenarios used to state properties of a recording session *)

(** The frames handed to the storage collaborator, in order. *)
Definition frames (es : list effect) : list frame :=
  flat_map (fun e => match e with
                     | SaveTimeviewMessage _ f => [f]
                     | _ => []
                     end) es.

(** A run of consumed batches, each a list of values with its timestamp. *)
Fixpoint consume
    (save_timeview_message : string -> frame -> bool * string)
    (st : state) (batches : list (list Z * string)) : state * list effect :=
  match batches with
  | [] => (st, [])
  | (values, timestamp) :: rest =>
      let (st1, e1) := split_and_store_values save_timeview_message st values timestamp in
      let (st2, e2) := consume save_timeview_message st1 rest in
      (st2, e1 ++ e2)%list
  end.

(** One recording session: start, consume some batches, stop. *)
Definition session
    (save_timeview_message : string -> frame -> bool * string)
    (st : state) (batches : list (list Z * string)) : state * list effect :=
  let (st1, e1) := start_saving st in
  let (st2, e2) := consume save_timeview_message st1 batches in
  let (st3, e3) := stop_saving st2 in
  (st3, e1 ++ e2 ++ e3)%list.

(** *** The display window of [update_time_view_plot] (lines 369-374) *)

(** The slice [l[k:]]: a negative [k] counts from the end. *)
Definition slice_from {A} (k : Z) (l : list A) : list A :=
if Z.ltb k 0
then skipn (List.length l - Z.to_nat (- k)) l
else skipn (Z.to_nat k) l.

(** The slice [l[::4]] *)
Fixpoint every_fourth {A} (l : list A) : list A :=
match l with
| [] => []
| x :: rest =>
x :: match rest with
| _ :: _ :: _ :: rest' => every_fourth rest'
| _ => []
end
end.

(** [self.samples_per_window]; [None] when [int(...)] raises. *)
Definition samples_per_window (current_buffer_size : Z) (rate : float) : option Z :=
let window_size := f1_0 in
match to_int (mul rate window_size) with
| None => None
| Some r =>
let n := Z.min current_buffer_size r in
Some (if Z.ltb n 2 then 2 else n)
end.

Definition window_values (buf : deque float) (spw : Z) : list float :=
slice_from (- spw) (items buf).

Definition window_timestamps (ts : deque string) (spw : Z) : list string :=
every_fourth (slice_from (- (spw * 4)) (items ts)).

(** *** Runs of the feature *)

(** What the user interface and the transport can ask of the feature. *)
Inductive action :=
| Select (tag_name : string)
| StartSaving
| StopSaving
| Receive (tag_name : string) (values : list Z) (now : Z)
| Resize.

(** [Resize] is the call of [adjust_buffer_size]; when [int(...)] raises
there, nothing has been assigned yet and the state is as before. *)
Definition perform
(save_timeview_message : string -> frame -> bool * string)
(isoformat : Z -> string) (st : state) (a : action) : state * list effect :=
match a with
| Select tag_name => (setup_time_view_plot st tag_name, [])
| StartSaving => start_saving st
| StopSaving => stop_saving st
| Receive tag_name values now =>
on_data_received save_timeview_message isoformat st tag_name values now
| Resize =>
match adjust_buffer_size st with
| Some st' => (st', [])
| None => (st, [])
end
end.

Fixpoint run
(save_timeview_message : string -> frame -> bool * string)
(isoformat : Z -> string) (st : state) (actions : list action)
: state * list effect :=
match actions with
| [] => (st, [])
| a :: rest =>
let (st1, e1) := perform save_timeview_message isoformat st a in
let (st2, e2) := run save_timeview_message isoformat st1 rest in
(st2, e1 ++ e2)%list
end.

End TimeViewFeature.

(** ** Reference descriptions

    Definitions that follow the wording of the specification, to be compared
    with the definitions obtained from the source. *)

Module Reference.
Import PyFloat Struct.

(** "length/2 unsigned 16-bit samples in order": sample [i] is made of the
    bytes at positions [2i] and [2i+1]. *)
Definition samples_of (o : byte_order) (payload : list byte) : list Z :=
  map (fun i => word_of o (nth (2 * i) payload x00) (nth (2 * i + 1) payload x00))
      (seq 0 (List.length payload / 2)).

(** "taking 4 consecutive input values at a time as (ch0,ch1,ch2,ch3)":
    channel [k] receives the values at positions [4j+k] of the first
    [groups] groups. *)
Definition demux (k : nat) (values : list float) (groups : nat) : list float :=
  map (fun j => nth (4 * j + k) values (S754_zero false)) (seq 0 groups).

(** Number of complete groups among at most [4096*4] input values. *)
Definition complete_groups (n : nat) : nat := (Nat.min n (4096 * 4) / 4)%nat.

(** "new_capacity = max(rate * 1.0 * 2, 100)", read on floats as written. *)
Definition capacity_as_stated (rate : float) : float :=
  max2 (mul (mul rate f1_0) (of_int 2)) (of_int 100).

(** "data_rate = values_count / elapsed_seconds / 4", kept at its prior
    value when there is no previous arrival or when the elapsed time is
    zero or negative. *)
Definition rate_as_stated (prior : float) (last : option Z) (now : Z)
    (values_count : nat) : float :=
  match last with
  | None => prior
  | Some t =>
      let elapsed_seconds := TimeViewFeature.total_seconds (now - t) in
      if gtb elapsed_seconds (of_int 0)
      then div (div (of_int (Z.of_nat values_count)) elapsed_seconds) (of_int 4)
      else prior
  end.

(** "default tick set [0,10,20,...,90]" *)
Definition default_ticks : list float :=
  map of_int [0; 10; 20; 30; 40; 50; 60; 70; 80; 90].

(** "compute y_min,y_max; if degenerate (y_min==y_max) pad by a flat amount
    (1.0), else pad by 10% of range". *)
Definition padded_range (v : float) (vs : list float) : float * float :=
  let y_min := py_min v vs in
  let y_max := py_max v vs in
  let pad := if eqb y_min y_max then f1_0 else mul (sub y_max y_min) f0_1 in
  (sub y_min pad, add y_max pad).

(** "rounded up to the nearest 0.5" *)
Definition round_up_half (x : float) : float := mul (ceil (div x f0_5)) f0_5.

(** "a step as max(range/10, 1) rounded up to the nearest 0.5", the range
    being that of the padded bounds. *)
Definition tick_step (y_min y_max : float) : float :=
  round_up_half (max2 (div (sub y_max y_min) (of_int 10)) (of_int 1)).

(** "enumerate ticks from [start] upward by [step] while <= y_max": tick
    [k] is [start] after [k] additions of [step], every tick is at most
    [y_max], and the value following the last tick is not. *)
Definition ticks_enumerated (start step y_max : float) (ticks : list float) : Prop :=
  (forall k, (k < List.length ticks)%nat ->
     nth k ticks (S754_zero false) = Nat.iter k (fun c => add c step) start
     /\ leb (nth k ticks (S754_zero false)) y_max = true)
  /\ leb (Nat.iter (List.length ticks) (fun c => add c step) start) y_max = false.

End Reference.

(** ** Invariants of the feature's state *)

Module Shape.
Import Deque TimeViewFeature.

(** Each timestamp written four times in a row. *)
Definition group4 (stamps : list string) : list string :=
flat_map (fun t => repeat t 4) stamps.

(** The four channel buffers have one capacity (at least 100) and one
length, within the capacity; the timestamp buffer has four times the
capacity and holds, for each position of a channel buffer, one timestamp
written four times. *)
Definition aligned (st : state) : Prop :=
let b := time_view_buffers st in
let cap := maxlen (buf0 b) in
100 <= cap
/\ maxlen (buf1 b) = cap /\ maxlen (buf2 b) = cap /\ maxlen (buf3 b) = cap
/\ maxlen (time_view_timestamps st) = cap * 4
/\ exists stamps,
items (time_view_timestamps st) = group4 stamps
/\ (List.length stamps <= Z.to_nat cap)%nat
/\ List.length (items (buf0 b)) = List.length stamps
/\ List.length (items (buf1 b)) = List.length stamps
/\ List.length (items (buf2 b)) = List.length stamps
/\ List.length (items (buf3 b)) = List.length stamps.

(** Recording happens only under a valid tag, the two buttons mirror the
recording flag, and the counters stay in range. *)
Definition recording_ok (st : state) : Prop :=
(is_saving st = true -> invalid_tag (mqtt_tag st) = false)
/\ (mqtt_tag st = None \/ invalid_tag (mqtt_tag st) = false)
/\ start_save_enabled st = negb (is_saving st)
/\ stop_save_enabled st = is_saving st
/\ 0 <= frame_index st
/\ 1 <= filename_counter st.

(** A frame as the storage collaborator may expect it. *)
Definition frame_ok (f : frame) : Prop :=
invalid_tag (f_topic f) = false
/\ 0 <= f_frameIndex f
/\ (exists n, 1 <= n /\ f_filename f = filename_of n)
/\ (List.length (f_message f) <= max_values)%nat.

(** The inverse of the demultiplexer: one value of each channel in turn. *)
Fixpoint interleave {A} (c0 c1 c2 c3 : list A) : list A :=
match c0, c1, c2, c3 with
| x0 :: r0, x1 :: r1, x2 :: r2, x3 :: r3 =>
x0 :: x1 :: x2 :: x3 :: interleave r0 r1 r2 r3
| _, _, _, _ => []
end.

(** How many of the frames [fs] the storage collaborator accepts. *)
Definition stored (save_timeview_message : string -> frame -> bool * string)
(project : string) (fs : list frame) : nat :=
List.length (filter (fun f => fst (save_timeview_message project f)) fs).

End Shape.

(** * Verification *)

(** ** Payload decoder and encoder *)

Section ListPairs.
Context {A : Type}.

Lemma pair_induction (P : list A -> Prop) :
  P [] -> (forall a, P [a]) -> (forall a b l, P l -> P (a :: b :: l)) ->
  forall l, P l.
Proof.
  intros Hnil Hone Hstep l.
  assert (H : P l /\ forall a, P (a :: l)).
  { induction l as [|x l [IH1 IH2]]; split; auto. }
  exact (proj1 H).
Qed.
End ListPairs.

Lemma half_SS (n : nat) : (S (S n) / 2 = S (n / 2))%nat.
Proof.
  replace (S (S n)) with (n + 1 * 2)%nat by lia.
  rewrite Nat.div_add by lia. lia.
Qed.

Lemma length_parity (n : nat) : negb (Nat.eqb (n mod 2) 0) = Nat.odd n.
Proof.
  rewrite <- Nat.negb_even. f_equal.
  destruct (Nat.even n) eqn:E.
  - apply Nat.even_spec in E. destruct E as [k ->].
    rewrite Nat.mul_comm, Nat.Div0.mod_mul. reflexivity.
  - apply Nat.eqb_neq. intro H.
    assert (Nat.even n = true); [|congruence].
    apply Nat.even_spec. exists (n / 2)%nat.
    pose proof (Nat.div_mod_eq n 2). lia.
Qed.

Lemma samples_of_cons2 o b0 b1 rest :
  Reference.samples_of o (b0 :: b1 :: rest) =
  Struct.word_of o b0 b1 :: Reference.samples_of o rest.
Proof.
  unfold Reference.samples_of.
  cbn [List.length]. rewrite half_SS. cbn [seq map]. f_equal.
  rewrite <- seq_shift, map_map. apply map_ext. intros i.
  replace (2 * S i)%nat with (S (S (2 * i))) by lia. reflexivity.
Qed.

Lemma unpack_words_even o : forall payload,
  Nat.odd (List.length payload) = false ->
  Struct.unpack_words o payload = Some (Reference.samples_of o payload).
Proof.
  induction payload as [| a | a b l IH] using pair_induction; intros Hodd.
  - reflexivity.
  - discriminate.
  - cbn [List.length] in Hodd. rewrite Nat.odd_succ_succ in Hodd.
    cbn [Struct.unpack_words]. rewrite (IH Hodd), samples_of_cons2. reflexivity.
Qed.

Lemma byte_val_range b : 0 <= Struct.byte_val b <= 255.
Proof.
  unfold Struct.byte_val. pose proof (Byte.to_N_bounded b). lia.
Qed.

Lemma byte_of_val b : Struct.byte_of_Z (Struct.byte_val b) = b.
Proof.
  unfold Struct.byte_of_Z, Struct.byte_val.
  rewrite N2Z.id, Byte.of_to_N. reflexivity.
Qed.

Lemma word_of_range o b0 b1 : 0 <= Struct.word_of o b0 b1 <= 65535.
Proof.
  pose proof (byte_val_range b0). pose proof (byte_val_range b1).
  destruct o; cbn [Struct.word_of]; lia.
Qed.

Lemma bytes_of_word o b0 b1 :
  Struct.bytes_of o (Struct.word_of o b0 b1) = [b0; b1].
Proof.
  pose proof (byte_val_range b0) as H0. pose proof (byte_val_range b1) as H1.
  destruct o; cbn [Struct.word_of Struct.bytes_of].
  - rewrite <- (Z.mod_unique _ 256 (Struct.byte_val b1) (Struct.byte_val b0))
      by (try left; lia).
    rewrite <- (Z.div_unique _ 256 (Struct.byte_val b1) (Struct.byte_val b0))
      by (try left; lia).
    now rewrite !byte_of_val.
  - rewrite <- (Z.mod_unique _ 256 (Struct.byte_val b0) (Struct.byte_val b1))
      by (try left; lia).
    rewrite <- (Z.div_unique _ 256 (Struct.byte_val b0) (Struct.byte_val b1))
      by (try left; lia).
    now rewrite !byte_of_val.
Qed.

Lemma samples_of_length o payload :
  List.length (Reference.samples_of o payload) = (List.length payload / 2)%nat.
Proof. unfold Reference.samples_of. now rewrite length_map, length_seq. Qed.

Lemma samples_of_range o payload :
  Forall (fun v => 0 <= v <= 65535) (Reference.samples_of o payload).
Proof.
  unfold Reference.samples_of. apply Forall_forall. intros v Hv.
  apply in_map_iff in Hv. destruct Hv as [i [<- _]]. apply word_of_range.
Qed.

Lemma pack_unpack_words o : forall payload values,
  Struct.unpack_words o payload = Some values ->
  Struct.pack_words o values = Some payload.
Proof.
  induction payload as [| a | a b l IH] using pair_induction; intros values H.
  - injection H as <-. reflexivity.
  - discriminate.
  - cbn [Struct.unpack_words] in H.
    destruct (Struct.unpack_words o l) as [vs|] eqn:E; [|discriminate].
    injection H as <-. cbn [Struct.pack_words].
    pose proof (word_of_range o a b) as R.
    replace ((0 <=? Struct.word_of o a b) && (Struct.word_of o a b <=? 65535))
      with true by (symmetry; apply andb_true_iff; split; apply Z.leb_le; lia).
    rewrite (IH vs eq_refl), bytes_of_word. reflexivity.
Qed.

Lemma decode_payload_eq o payload :
  snd (MQTTWorker.decode_payload o payload) =
  if Nat.odd (List.length payload) then inl MQTTWorker.size_error
  else match payload with
       | [] => inl MQTTWorker.empty_error
       | _ :: _ => inr (Reference.samples_of o payload)
       end.
Proof.
  unfold MQTTWorker.decode_payload. rewrite length_parity.
  destruct (Nat.odd (List.length payload)) eqn:Hodd; [reflexivity|].
  unfold Struct.unpack_H.
  replace (List.length payload =? 2 * (List.length payload / 2))%nat with true.
  - rewrite (unpack_words_even o payload Hodd).
    destruct payload as [|a [|b l]]; [reflexivity|discriminate|].
    rewrite samples_of_cons2. reflexivity.
  - symmetry. apply Nat.eqb_eq.
    rewrite <- Nat.negb_even in Hodd. apply negb_false_iff in Hodd.
    apply Nat.even_spec in Hodd. destruct Hodd as [k Hk]. rewrite Hk.
    assert (2 * k / 2 = k)%nat as ->
      by (rewrite (Nat.mul_comm 2 k); apply Nat.div_mul; lia).
    reflexivity.
Qed.

Lemma decode_payload_logs o payload :
  Forall MQTTWorker.is_log (fst (MQTTWorker.decode_payload o payload)).
Proof.
  unfold MQTTWorker.decode_payload.
  destruct (negb _); [constructor|].
  destruct (Struct.unpack_H _ _ _) as [[|v vs]|]; cbn [fst];
    repeat constructor; eexists; eexists; reflexivity.
Qed.

Lemma filter_logs (p : MQTTWorker.effect -> bool) logs :
  (forall lvl m, p (MQTTWorker.Log lvl m) = false) ->
  Forall MQTTWorker.is_log logs -> filter p logs = [].
Proof.
  intros Hp H. induction H as [|e l [lvl [m ->]] _ IH]; [reflexivity|].
  cbn [filter]. now rewrite Hp.
Qed.

(** Shape of the trace of [on_message] once the payload is decoded: log
    lines, the storage call, then what depends on its outcome. *)
Lemma on_message_decoded o w db now msg values :
  snd (MQTTWorker.decode_payload o (MQTTWorker.payload msg)) = inr values ->
  exists pre tail,
    MQTTWorker.on_message o w db now msg =
      pre ++ MQTTWorker.UpdateTagValue (MQTTWorker.project_name w)
               (MQTTWorker.topic msg) values now :: tail
    /\ Forall MQTTWorker.is_log pre
    /\ match db (MQTTWorker.project_name w) (MQTTWorker.topic msg) values now with
       | MQTTWorker.Returns true _ =>
           exists m, tail = [MQTTWorker.Log MQTTWorker.INFO m;
                             MQTTWorker.Emit
                               (MQTTWorker.data_received (MQTTWorker.topic msg) values)]
       | _ => exists m, tail = [MQTTWorker.Log MQTTWorker.ERROR m]
       end.
Proof.
  intros Hdec. unfold MQTTWorker.on_message.
  pose proof (decode_payload_logs o (MQTTWorker.payload msg)) as Hlogs.
  destruct (MQTTWorker.decode_payload o (MQTTWorker.payload msg)) as [logs r].
  cbn [fst snd] in *. subst r.
  eexists (_ :: logs), _. split; [reflexivity|]. split.
  - constructor; [eexists; eexists; reflexivity | exact Hlogs].
  - destruct (db _ _ _ _) as [[|] m|e]; eexists; reflexivity.
Qed.

Lemma on_message_failed o w db now msg e :
  snd (MQTTWorker.decode_payload o (MQTTWorker.payload msg)) = inl e ->
  Forall MQTTWorker.is_log (MQTTWorker.on_message o w db now msg).
Proof.
  intros Hdec. unfold MQTTWorker.on_message.
  pose proof (decode_payload_logs o (MQTTWorker.payload msg)) as Hlogs.
  destruct (MQTTWorker.decode_payload o (MQTTWorker.payload msg)) as [logs r].
  cbn [fst snd] in *. subst r.
  constructor; [eexists; eexists; reflexivity|].
  destruct e; apply Forall_app; split; auto;
    repeat constructor; eexists; eexists; reflexivity.
Qed.

(** C2. Decoding fails exactly when the payload has an odd number of bytes
    (payload-size error) or is empty (empty-payload error), and then no
    sample leaves the worker: neither a storage call nor a [data_received]
    emission is made. Every other payload decodes to [length/2] samples, each
    an unsigned 16-bit value, sample [i] being made of bytes [2i] and [2i+1]. *)
Theorem decode_payload_outcome
    (o : Struct.byte_order) (w : MQTTWorker.worker)
    (db : string -> string -> list Z -> string -> MQTTWorker.db_result)
    (now : string) (msg : MQTTWorker.message) :
  let payload := MQTTWorker.payload msg in
  snd (MQTTWorker.decode_payload o payload) =
    (if Nat.odd (List.length payload) then inl MQTTWorker.size_error
     else match payload with
          | [] => inl MQTTWorker.empty_error
          | _ :: _ => inr (Reference.samples_of o payload)
          end)
  /\ List.length (Reference.samples_of o payload) = (List.length payload / 2)%nat
  /\ Forall (fun v => 0 <= v <= 65535) (Reference.samples_of o payload)
  /\ match snd (MQTTWorker.decode_payload o payload) with
     | inl _ =>
         filter (fun e => MQTTWorker.is_data e || MQTTWorker.is_update e)
                (MQTTWorker.on_message o w db now msg) = []
     | inr _ => True
     end.
Proof.
  intros payload. split; [apply decode_payload_eq|].
  split; [apply samples_of_length|]. split; [apply samples_of_range|].
  destruct (snd (MQTTWorker.decode_payload o payload)) as [e|values] eqn:E; [|exact I].
  apply filter_logs; [reflexivity|]. exact (on_message_failed o w db now msg e E).
Qed.

(** C3. Re-encoding the samples decoded from a valid payload, with the same
    byte order, gives back the payload byte for byte. *)
Theorem decode_encode_roundtrip
    (o : Struct.byte_order) (payload : list byte) (values : list Z) :
  snd (MQTTWorker.decode_payload o payload) = inr values ->
  MQTTPublisher.binary_message o values = Some payload.
Proof.
  rewrite decode_payload_eq.
  destruct (Nat.odd (List.length payload)) eqn:Hodd; [discriminate|].
  destruct payload as [|a l] eqn:Hp; [discriminate|]. rewrite <- Hp in *.
  intros H. injection H as <-.
  unfold MQTTPublisher.binary_message, Struct.pack_H. rewrite Nat.eqb_refl.
  apply pack_unpack_words, unpack_words_even, Hodd.
Qed.

Lemma decode_encode_roundtrip_witness :
  snd (MQTTWorker.decode_payload Struct.BigEndian [x12; x34; xab; xcd])
    = inr [4660; 43981]
  /\ MQTTPublisher.binary_message Struct.BigEndian [4660; 43981]
     = Some [x12; x34; xab; xcd].
Proof.
  split; [reflexivity|].
  apply (decode_encode_roundtrip Struct.BigEndian [x12; x34; xab; xcd]).
  reflexivity.
Defined.

(** C10. Once a message is decoded the worker first calls
    [update_tag_value] with the decoded values; [data_received] is emitted,
    after that call, only when the call reports success. When it reports
    failure (or raises) the trace ends with an error log line and the samples
    are never emitted. *)
Theorem on_message_store_then_emit
    (o : Struct.byte_order) (w : MQTTWorker.worker)
    (db : string -> string -> list Z -> string -> MQTTWorker.db_result)
    (now : string) (msg : MQTTWorker.message) (values : list Z) :
  snd (MQTTWorker.decode_payload o (MQTTWorker.payload msg)) = inr values ->
  let call := MQTTWorker.UpdateTagValue (MQTTWorker.project_name w)
                (MQTTWorker.topic msg) values now in
  let emission := MQTTWorker.Emit
                    (MQTTWorker.data_received (MQTTWorker.topic msg) values) in
  exists pre tail,
    MQTTWorker.on_message o w db now msg = pre ++ call :: tail
    /\ Forall MQTTWorker.is_log pre
    /\ match db (MQTTWorker.project_name w) (MQTTWorker.topic msg) values now with
       | MQTTWorker.Returns true _ =>
           (exists m, tail = [MQTTWorker.Log MQTTWorker.INFO m; emission])
           /\ filter MQTTWorker.is_data (MQTTWorker.on_message o w db now msg)
              = [emission]
       | _ =>
           (exists m, tail = [MQTTWorker.Log MQTTWorker.ERROR m])
           /\ filter MQTTWorker.is_data (MQTTWorker.on_message o w db now msg) = []
       end.
Proof.
  intros Hdec call emission.
  destruct (on_message_decoded o w db now msg values Hdec)
    as [pre [tail [Heq [Hpre Htail]]]].
  exists pre, tail. split; [exact Heq|]. split; [exact Hpre|].
  rewrite Heq, filter_app, (filter_logs _ pre) by (auto; reflexivity).
  fold call.
  destruct (db _ _ _ _) as [[|] m|e]; destruct Htail as [m' ->];
    (split; [eexists; reflexivity | reflexivity]).
Qed.

Lemma on_message_store_then_emit_witness :
  let w := MQTTWorker.init "plant" in
  let msg := MQTTWorker.mk_message "tag1" [x01; x00; x02; x00] in
  MQTTWorker.on_message Struct.LittleEndian w
    (fun _ _ _ _ => MQTTWorker.Returns false "db down") "t0" msg
  = [MQTTWorker.Log MQTTWorker.DEBUG
       "Received message on tag1, payload size: 4 bytes";
     MQTTWorker.Log MQTTWorker.DEBUG "First 5 values: [1, 2]";
     MQTTWorker.UpdateTagValue "plant" "tag1" [1; 2] "t0";
     MQTTWorker.Log MQTTWorker.ERROR "Failed to store values: db down"]
  /\ exists pre tail,
       MQTTWorker.on_message Struct.LittleEndian w
         (fun _ _ _ _ => MQTTWorker.Returns false "db down") "t0" msg
       = pre ++ MQTTWorker.UpdateTagValue "plant" "tag1" [1; 2] "t0" :: tail
       /\ filter MQTTWorker.is_data tail = [].
Proof.
  intros w msg. split; [reflexivity|].
  destruct (on_message_store_then_emit Struct.LittleEndian w
              (fun _ _ _ _ => MQTTWorker.Returns false "db down") "t0" msg [1; 2]
              eq_refl) as [pre [tail [Heq [_ [[m Hm] _]]]]].
  exists pre, tail. split; [exact Heq|]. rewrite Hm. reflexivity.
Defined.

(** ** Connection retry loop *)

Ltac at_attempts H :=
  try (pose proof (H 0 ltac:(lia)));
  try (pose proof (H 1 ltac:(lia)));
  try (pose proof (H 2 ltac:(lia))).

Ltac retry_leaf :=
  eexists; split; [reflexivity|];
  split; [cbv [MQTTWorker.count];
          cbn [filter MQTTWorker.is_attempt List.length]; lia|];
  split; [eexists;
          cbv [MQTTWorker.schedule MQTTWorker.full_schedule MQTTWorker.retry_interval];
          cbn [filter MQTTWorker.is_attempt MQTTWorker.is_sleep orb app];
          reflexivity|];
  split; [cbv [MQTTWorker.count];
          cbn [filter MQTTWorker.is_failed List.length]; lia|];
  split; [intros k Hk Hr Hc Hk0;
          assert (k = 0 \/ k = 1 \/ k = 2) as [-> | [-> | ->]] by lia;
          at_attempts Hr; at_attempts Hc;
          try congruence; repeat split; reflexivity|];
  split; [intros Hall; at_attempts Hall; try (intuition congruence);
          repeat split; reflexivity|];
  intros Hf; try discriminate Hf;
  intros j Hj; assert (j = 0 \/ j = 1 \/ j = 2) as [-> | [-> | ->]] by lia;
  split; congruence.

(** C9. One invocation of [connect_with_retry] terminates and makes at most
    three connection attempts; its attempts and waits form a prefix of
    "attempt, wait 5 s, attempt, wait 5 s, attempt", so consecutive attempts
    are separated by one 5-second wait and nothing follows the third attempt.
    The first successful attempt ends the invocation with [connected]; three
    failures in a row end it with exactly one [connection_failed], which is
    emitted in no other case. *)
Theorem connect_with_retry_bounded
    (w : MQTTWorker.worker) (connect_outcome : Z -> option string)
    (running_at : Z -> bool) (fuel : nat) :
  (3 <= fuel)%nat ->
  exists trace,
    MQTTWorker.connect_with_retry w connect_outcome running_at fuel = Some trace
    /\ (MQTTWorker.count MQTTWorker.is_attempt trace <= 3)%nat
    /\ (exists rest, MQTTWorker.schedule trace ++ rest = MQTTWorker.full_schedule w)
    /\ (MQTTWorker.count MQTTWorker.is_failed trace <= 1)%nat
    /\ (forall k, 0 <= k < 3 ->
          (forall j, 0 <= j <= k -> running_at j = true) ->
          (forall j, 0 <= j < k -> connect_outcome j <> None) ->
          connect_outcome k = None ->
          MQTTWorker.count MQTTWorker.is_attempt trace = S (Z.to_nat k)
          /\ last trace (MQTTWorker.Sleep 0) = MQTTWorker.Emit MQTTWorker.connected
          /\ MQTTWorker.count MQTTWorker.is_connected trace = 1%nat
          /\ MQTTWorker.count MQTTWorker.is_failed trace = 0%nat)
    /\ ((forall j, 0 <= j < 3 -> running_at j = true /\ connect_outcome j <> None) ->
          MQTTWorker.count MQTTWorker.is_attempt trace = 3%nat
          /\ MQTTWorker.is_failed (last trace (MQTTWorker.Sleep 0)) = true
          /\ MQTTWorker.count MQTTWorker.is_failed trace = 1%nat
          /\ MQTTWorker.count MQTTWorker.is_connected trace = 0%nat)
    /\ (MQTTWorker.count MQTTWorker.is_failed trace = 1%nat ->
          forall j, 0 <= j < 3 -> running_at j = true /\ connect_outcome j <> None).
Proof.
  intros Hfuel. destruct fuel as [|[|[|fuel]]]; try lia.
  unfold MQTTWorker.connect_with_retry. cbn -[String.append PyStr.str_int].
  destruct (running_at 0) eqn:R0; cbn -[String.append PyStr.str_int]; [|retry_leaf].
  destruct (connect_outcome 0) eqn:C0; [|retry_leaf].
  destruct (running_at 1) eqn:R1; cbn -[String.append PyStr.str_int]; [|retry_leaf].
  destruct (connect_outcome 1) eqn:C1; [|retry_leaf].
  destruct (running_at 2) eqn:R2; cbn -[String.append PyStr.str_int]; [|retry_leaf].
  destruct (connect_outcome 2) eqn:C2; retry_leaf.
Qed.

Lemma connect_with_retry_bounded_witness :
  let w := MQTTWorker.init "plant" in
  let refused_twice := fun k => if k <? 2 then Some "refused"%string else None in
  (3 <= 3)%nat
  /\ exists trace,
       MQTTWorker.connect_with_retry w refused_twice (fun _ => true) 3 = Some trace
       /\ MQTTWorker.count MQTTWorker.is_attempt trace = 3%nat
       /\ last trace (MQTTWorker.Sleep 0) = MQTTWorker.Emit MQTTWorker.connected.
Proof.
  intros w refused_twice. split; [lia|].
  destruct (connect_with_retry_bounded w refused_twice (fun _ => true) 3
              ltac:(lia)) as [trace [Hrun [_ [_ [_ [Hok _]]]]]].
  exists trace. split; [exact Hrun|].
  destruct (Hok 2) as [Hn [Hlast _]]; try lia; try reflexivity.
  - intros j Hj. assert (j = 0 \/ j = 1) as [-> | ->] by lia; discriminate.
  - split; [exact Hn | exact Hlast].
Defined.

(** ** Bounded deques *)

Section DequeFacts.
Context {A : Type}.
Implicit Types (d : Deque.deque A) (l xs : list A).

Lemma trim_short cap l :
  (List.length l <= Z.to_nat cap)%nat -> Deque.trim cap l = l.
Proof.
  intros H. unfold Deque.trim.
  replace (List.length l - Z.to_nat cap)%nat with 0%nat by lia. reflexivity.
Qed.

Lemma trim_length cap l :
  List.length (Deque.trim cap l) = Nat.min (List.length l) (Z.to_nat cap).
Proof. unfold Deque.trim. rewrite length_skipn. lia. Qed.

Lemma trim_app_trim cap l xs :
  Deque.trim cap (Deque.trim cap l ++ xs) = Deque.trim cap (l ++ xs).
Proof.
  unfold Deque.trim.
  rewrite !length_app, length_skipn, !skipn_app, skipn_skipn, length_skipn.
  f_equal; f_equal; lia.
Qed.

Lemma maxlen_extend d xs : Deque.maxlen (Deque.extend d xs) = Deque.maxlen d.
Proof.
  unfold Deque.extend. revert d.
  induction xs as [|x xs IH]; intros d; [reflexivity|].
  cbn [fold_left]. now rewrite IH.
Qed.

Lemma extend_app d xs ys :
  Deque.extend d (xs ++ ys) = Deque.extend (Deque.extend d xs) ys.
Proof. apply fold_left_app. Qed.

Lemma items_extend d xs :
  Deque.wf d ->
  Deque.items (Deque.extend d xs) = Deque.trim (Deque.maxlen d) (Deque.items d ++ xs).
Proof.
  unfold Deque.extend. revert d.
  induction xs as [|x xs IH]; intros d Hwf.
  - cbn [fold_left]. rewrite app_nil_r, trim_short; auto.
  - cbn [fold_left]. rewrite IH.
    + cbn [Deque.append Deque.items Deque.maxlen].
      rewrite trim_app_trim, <- app_assoc. reflexivity.
    + unfold Deque.wf. cbn [Deque.append Deque.items Deque.maxlen].
      rewrite trim_length. lia.
Qed.

Lemma wf_extend d xs : Deque.wf d -> Deque.wf (Deque.extend d xs).
Proof.
  intros Hwf. unfold Deque.wf.
  rewrite items_extend, maxlen_extend, trim_length by assumption. lia.
Qed.

Lemma items_make l cap : Deque.items (Deque.make l cap) = Deque.trim cap l.
Proof.
  unfold Deque.make. rewrite items_extend; [reflexivity|].
  unfold Deque.wf. cbn. lia.
Qed.

Lemma maxlen_make l cap : Deque.maxlen (Deque.make l cap) = cap.
Proof. unfold Deque.make. now rewrite maxlen_extend. Qed.

Lemma append_is_popleft d x :
  Deque.wf d -> Deque.append d x = Deque.append_popleft d x.
Proof.
  unfold Deque.wf, Deque.append, Deque.append_popleft, Deque.trim. intros Hwf.
  f_equal. rewrite length_app. cbn [List.length].
  destruct (Z.gtb_spec (Z.of_nat (List.length (Deque.items d) + 1)) (Deque.maxlen d)).
  - replace (List.length (Deque.items d) + 1 - Z.to_nat (Deque.maxlen d))%nat
      with 1%nat by lia.
    destruct (Deque.items d ++ [x]); reflexivity.
  - replace (List.length (Deque.items d) + 1 - Z.to_nat (Deque.maxlen d))%nat
      with 0%nat by lia.
    reflexivity.
Qed.
End DequeFacts.

(** ** Channel demultiplexer *)

Section Demux.
Variable values : list PyFloat.float.
Variable timestamp : string.
Variable stop : nat.
Hypothesis stop_le : (stop <= List.length values)%nat.
Hypothesis stop_aligned : stop = List.length values \/ (stop mod 4 = 0)%nat.

Let added (k j0 : nat) : list PyFloat.float :=
  map (fun j => nth (4 * j + k) values (S754_zero false)) (seq j0 (stop / 4 - j0)).

Lemma fold_store_group : forall fuel j0 b ts,
  (stop / 4 <= j0 + fuel)%nat ->
  fold_left (TimeViewFeature.store_group values timestamp)
    (TimeViewFeature.range_from fuel (4 * j0) stop 4) (b, ts) =
  (TimeViewFeature.mk_buffers
     (Deque.extend (TimeViewFeature.buf0 b) (added 0 j0))
     (Deque.extend (TimeViewFeature.buf1 b) (added 1 j0))
     (Deque.extend (TimeViewFeature.buf2 b) (added 2 j0))
     (Deque.extend (TimeViewFeature.buf3 b) (added 3 j0)),
   Deque.extend ts (repeat timestamp (4 * (stop / 4 - j0)))).
Proof.
  induction fuel as [|fuel IH]; intros j0 b ts Hfuel.
  - unfold added. replace (stop / 4 - j0)%nat with 0%nat by lia.
    destruct b; reflexivity.
  - cbn [TimeViewFeature.range_from].
    destruct (Nat.ltb_spec (4 * j0) stop) as [Hlt|Hge].
    + cbn [fold_left]. replace (4 * j0 + 4)%nat with (4 * S j0)%nat by lia.
      unfold TimeViewFeature.store_group at 2.
      destruct (Nat.ltb_spec (4 * j0 + 3) (List.length values)) as [Hin|Hout].
      * assert (Hj : (j0 < stop / 4)%nat).
        { pose proof (Nat.div_mod_eq stop 4).
          pose proof (Nat.mod_upper_bound stop 4). lia. }
        rewrite IH by lia. unfold added.
        replace (stop / 4 - j0)%nat with (S (stop / 4 - S j0)) by lia.
        cbn [seq map TimeViewFeature.buf0 TimeViewFeature.buf1
               TimeViewFeature.buf2 TimeViewFeature.buf3].
        replace (4 * S (stop / 4 - S j0))%nat
          with (4 + 4 * (stop / 4 - S j0))%nat by lia.
        rewrite repeat_app, extend_app.
        rewrite !Nat.add_0_r. reflexivity.
      * assert (Hj : (stop / 4 <= j0)%nat).
        { pose proof (Nat.div_mod_eq stop 4).
          pose proof (Nat.mod_upper_bound stop 4). lia. }
        rewrite IH by lia. unfold added.
        replace (stop / 4 - S j0)%nat with 0%nat by lia.
        replace (stop / 4 - j0)%nat with 0%nat by lia.
        destruct b; reflexivity.
    + assert (Hj : (stop / 4 <= j0)%nat).
      { pose proof (Nat.div_mod_eq stop 4).
          pose proof (Nat.mod_upper_bound stop 4). lia. }
      unfold added. replace (stop / 4 - j0)%nat with 0%nat by lia.
      destruct b; reflexivity.
Qed.
End Demux.

Lemma max_values_eq : TimeViewFeature.max_values = (4096 * 4)%nat.
Proof. reflexivity. Qed.

Lemma split_and_store_buffers save st values timestamp :
  let floats := map PyFloat.of_int values in
  let g := Reference.complete_groups (List.length values) in
  let st' := fst (TimeViewFeature.split_and_store_values save st values timestamp) in
  TimeViewFeature.time_view_buffers st' =
    TimeViewFeature.mk_buffers
      (Deque.extend (TimeViewFeature.buf0 (TimeViewFeature.time_view_buffers st))
                    (Reference.demux 0 floats g))
      (Deque.extend (TimeViewFeature.buf1 (TimeViewFeature.time_view_buffers st))
                    (Reference.demux 1 floats g))
      (Deque.extend (TimeViewFeature.buf2 (TimeViewFeature.time_view_buffers st))
                    (Reference.demux 2 floats g))
      (Deque.extend (TimeViewFeature.buf3 (TimeViewFeature.time_view_buffers st))
                    (Reference.demux 3 floats g))
  /\ TimeViewFeature.time_view_timestamps st' =
     Deque.extend (TimeViewFeature.time_view_timestamps st) (repeat timestamp (4 * g)).
Proof.
  intros floats g st'. subst st'. unfold TimeViewFeature.split_and_store_values.
  fold floats. unfold TimeViewFeature.range.
  set (stop := Nat.min (List.length floats) TimeViewFeature.max_values).
  assert (Hle : (stop <= List.length floats)%nat) by (subst stop; lia).
  assert (Hal : stop = List.length floats \/ (stop mod 4 = 0)%nat).
  { subst stop. destruct (Nat.min_spec (List.length floats) TimeViewFeature.max_values)
      as [[_ ->]|[_ ->]]; [left; reflexivity | right; reflexivity]. }
  pose proof (fold_store_group floats timestamp stop Hle Hal stop 0
                (TimeViewFeature.time_view_buffers st)
                (TimeViewFeature.time_view_timestamps st)) as Hfold.
  rewrite Nat.mul_0_r, Nat.sub_0_r in Hfold. rewrite Hfold.
  2:{ pose proof (Nat.div_mod_eq stop 4). lia. }
  assert (Hg : (stop / 4)%nat = g).
  { subst stop g floats. unfold Reference.complete_groups.
    now rewrite length_map, max_values_eq. }
  rewrite Hg. unfold Reference.demux.
  destruct (TimeViewFeature.is_saving _); [|split; reflexivity].
  destruct (save _ _) as [[|] msg]; split; reflexivity.
Qed.

(** C1. [split_and_store_values] appends to channel buffer [k] the values at
    positions [4j+k] of the first [g] groups of the input, and appends the
    timestamp four times per group, where [g] is the number of complete
    groups of four among the first [4096*4] values: nothing beyond that
    bound is stored and, below it, fewer than four trailing values are left
    out. For the input 1..8 on fresh buffers the channels hold [1,5], [2,6],
    [3,7], [4,8] and the timestamp buffer holds the timestamp eight times. *)
Theorem split_and_store_values_demux
    (save : string -> TimeViewFeature.frame -> bool * string)
    (st : TimeViewFeature.state) (values : list Z) (timestamp : string) :
  let floats := map PyFloat.of_int values in
  let g := Reference.complete_groups (List.length values) in
  let st' := fst (TimeViewFeature.split_and_store_values save st values timestamp) in
  let fresh := fst (TimeViewFeature.split_and_store_values save
                      (TimeViewFeature.init "plant") [1; 2; 3; 4; 5; 6; 7; 8]
                      timestamp) in
  (TimeViewFeature.time_view_buffers st' =
     TimeViewFeature.mk_buffers
       (Deque.extend (TimeViewFeature.buf0 (TimeViewFeature.time_view_buffers st))
                     (Reference.demux 0 floats g))
       (Deque.extend (TimeViewFeature.buf1 (TimeViewFeature.time_view_buffers st))
                     (Reference.demux 1 floats g))
       (Deque.extend (TimeViewFeature.buf2 (TimeViewFeature.time_view_buffers st))
                     (Reference.demux 2 floats g))
       (Deque.extend (TimeViewFeature.buf3 (TimeViewFeature.time_view_buffers st))
                     (Reference.demux 3 floats g))
   /\ TimeViewFeature.time_view_timestamps st' =
      Deque.extend (TimeViewFeature.time_view_timestamps st)
                   (repeat timestamp (4 * g)))
  /\ (4 * g <= Nat.min (List.length values) (4096 * 4))%nat
  /\ (Nat.min (List.length values) (4096 * 4) - 4 * g < 4)%nat
  /\ (map Deque.items
          [TimeViewFeature.buf0 (TimeViewFeature.time_view_buffers fresh);
           TimeViewFeature.buf1 (TimeViewFeature.time_view_buffers fresh);
           TimeViewFeature.buf2 (TimeViewFeature.time_view_buffers fresh);
           TimeViewFeature.buf3 (TimeViewFeature.time_view_buffers fresh)]
       = [map PyFloat.of_int [1; 5]; map PyFloat.of_int [2; 6];
          map PyFloat.of_int [3; 7]; map PyFloat.of_int [4; 8]]
      /\ Deque.items (TimeViewFeature.time_view_timestamps fresh)
         = repeat timestamp 8).
Proof.
  intros floats g st' fresh.
  split; [apply split_and_store_buffers|].
  assert (Hdiv : (4 * g <= Nat.min (List.length values) (4096 * 4)
                  /\ Nat.min (List.length values) (4096 * 4) - 4 * g < 4)%nat).
  { subst g. unfold Reference.complete_groups.
    pose proof (Nat.div_mod_eq (Nat.min (List.length values) (4096 * 4)) 4).
    pose proof (Nat.mod_upper_bound (Nat.min (List.length values) (4096 * 4)) 4).
    lia. }
  split; [apply Hdiv|]. split; [apply Hdiv|].
  split; vm_compute; reflexivity.
Qed.

(** ** Recording controller *)

Lemma str_int_inj a b : PyStr.str_int a = PyStr.str_int b -> a = b.
Proof.
  unfold PyStr.str_int. intros H.
  apply DecimalZ.to_int_inj.
  assert (Hnn : forall z, Z.to_int z <> Decimal.Pos Decimal.Nil
                          /\ Z.to_int z <> Decimal.Neg Decimal.Nil).
  { intros [|p|p]; split; cbn; try discriminate;
      intros E; injection E; apply DecimalPos.Unsigned.to_uint_nonnil. }
  apply (f_equal NilZero.int_of_string) in H.
  rewrite !NilZero.isi in H by apply Hnn. now injection H.
Qed.

Lemma filename_of_inj a b :
  TimeViewFeature.filename_of a = TimeViewFeature.filename_of b -> a = b.
Proof.
  unfold TimeViewFeature.filename_of. cbn [String.append]. intros H.
  injection H as H. now apply str_int_inj.
Qed.

(** What one consumed batch leaves untouched, and the name its frame bears. *)
Lemma split_and_store_recording save st values timestamp :
  let r := TimeViewFeature.split_and_store_values save st values timestamp in
  TimeViewFeature.is_saving (fst r) = TimeViewFeature.is_saving st
  /\ TimeViewFeature.filename_counter (fst r) = TimeViewFeature.filename_counter st
  /\ TimeViewFeature.mqtt_tag (fst r) = TimeViewFeature.mqtt_tag st
  /\ Forall (fun f => TimeViewFeature.f_filename f
                      = TimeViewFeature.filename_of (TimeViewFeature.filename_counter st))
            (TimeViewFeature.frames (snd r)).
Proof.
  unfold TimeViewFeature.split_and_store_values.
  destruct (fold_left _ _ _) as [b ts].
  cbn [TimeViewFeature.is_saving TimeViewFeature.set_buffers].
  destruct (TimeViewFeature.is_saving st) eqn:Hs.
  - destruct (save _ _) as [[|] msg]; cbn; rewrite ?Hs; repeat split;
      repeat constructor.
  - cbn. rewrite Hs. repeat split. constructor.
Qed.

Lemma consume_recording save : forall batches st,
  let r := TimeViewFeature.consume save st batches in
  TimeViewFeature.is_saving (fst r) = TimeViewFeature.is_saving st
  /\ TimeViewFeature.filename_counter (fst r) = TimeViewFeature.filename_counter st
  /\ TimeViewFeature.mqtt_tag (fst r) = TimeViewFeature.mqtt_tag st
  /\ Forall (fun f => TimeViewFeature.f_filename f
                      = TimeViewFeature.filename_of (TimeViewFeature.filename_counter st))
            (TimeViewFeature.frames (snd r)).
Proof.
  induction batches as [|[values timestamp] rest IH]; intros st.
  - cbn. repeat split. constructor.
  - cbn [TimeViewFeature.consume].
    pose proof (split_and_store_recording save st values timestamp) as H1.
    destruct (TimeViewFeature.split_and_store_values save st values timestamp)
      as [st1 e1].
    cbn [fst snd] in H1. destruct H1 as [Hs [Hc [Ht Hf]]].
    specialize (IH st1).
    destruct (TimeViewFeature.consume save st1 rest) as [st2 e2].
    cbn [fst snd] in *. destruct IH as [Hs2 [Hc2 [Ht2 Hf2]]].
    repeat split; try congruence.
    unfold TimeViewFeature.frames in *. rewrite flat_map_app.
    apply Forall_app. split; [exact Hf|]. now rewrite <- Hc.
Qed.

Lemma session_recording save st batches :
  TimeViewFeature.invalid_tag (TimeViewFeature.mqtt_tag st) = false ->
  let r := TimeViewFeature.session save st batches in
  TimeViewFeature.is_saving (fst r) = false
  /\ TimeViewFeature.filename_counter (fst r) = TimeViewFeature.filename_counter st + 1
  /\ TimeViewFeature.mqtt_tag (fst r) = TimeViewFeature.mqtt_tag st
  /\ Forall (fun f => TimeViewFeature.f_filename f
                      = TimeViewFeature.filename_of (TimeViewFeature.filename_counter st))
            (TimeViewFeature.frames (snd r)).
Proof.
  intros Hvalid. unfold TimeViewFeature.session, TimeViewFeature.start_saving.
  rewrite Hvalid.
  match goal with |- context [TimeViewFeature.consume save ?s batches] =>
    pose proof (consume_recording save batches s) as H; 
    destruct (TimeViewFeature.consume save s batches) as [st2 e2] end.
  cbn [fst snd] in H. destruct H as [Hs [Hc [Ht Hf]]].
  cbn in Hc, Ht, Hf.
  unfold TimeViewFeature.stop_saving. cbn [fst snd].
  cbn [TimeViewFeature.is_saving TimeViewFeature.filename_counter
       TimeViewFeature.mqtt_tag TimeViewFeature.setText
       TimeViewFeature.set_filename_counter TimeViewFeature.set_buttons
       TimeViewFeature.set_is_saving].
  repeat split; try congruence.
  unfold TimeViewFeature.frames in *. rewrite !flat_map_app.
  cbn [flat_map app]. rewrite app_nil_r. exact Hf.
Qed.

(** C6. [start_saving] with no valid tag selected reports an error and
    leaves the recording state (and everything but the status text) as it
    was; with a valid tag it enters recording with frame index 0 under the
    name [data<counter>]. [stop_saving] always leaves recording and adds one
    to the counter, whatever the frame index reached. Hence two sessions in
    a row write their frames under [data<c>] and [data<c+1>], two different
    names, whatever batches each consumed; from the initial counter these are
    [data1] and [data2]. *)
Theorem recording_start_stop
    (save : string -> TimeViewFeature.frame -> bool * string)
    (st : TimeViewFeature.state) (batches1 batches2 : list (list Z * string)) :
  let c := TimeViewFeature.filename_counter st in
  (TimeViewFeature.invalid_tag (TimeViewFeature.mqtt_tag st) = true ->
     let st1 := fst (TimeViewFeature.start_saving st) in
     snd (TimeViewFeature.start_saving st)
       = [TimeViewFeature.Warning "Error" "Please select a valid tag!"]
     /\ st1 = TimeViewFeature.setText st "Error: Please select a valid tag!"
     /\ TimeViewFeature.is_saving st1 = TimeViewFeature.is_saving st
     /\ TimeViewFeature.frame_index st1 = TimeViewFeature.frame_index st
     /\ TimeViewFeature.filename_counter st1 = c)
  /\ (TimeViewFeature.invalid_tag (TimeViewFeature.mqtt_tag st) = false ->
     let st1 := fst (TimeViewFeature.start_saving st) in
     let text := ("Started saving data for "
                  ++ TimeViewFeature.tag_text (TimeViewFeature.mqtt_tag st)
                  ++ " to " ++ TimeViewFeature.filename_of c)%string in
     TimeViewFeature.is_saving st1 = true
     /\ TimeViewFeature.frame_index st1 = 0
     /\ TimeViewFeature.filename_counter st1 = c
     /\ TimeViewFeature.time_result st1 = [text]
     /\ snd (TimeViewFeature.start_saving st)
        = [TimeViewFeature.Information "Success" text])
  /\ (let st2 := fst (TimeViewFeature.stop_saving st) in
      TimeViewFeature.is_saving st2 = false
      /\ TimeViewFeature.filename_counter st2 = c + 1
      /\ exists text, snd (TimeViewFeature.stop_saving st)
                      = [TimeViewFeature.Information "Success" text])
  /\ (TimeViewFeature.invalid_tag (TimeViewFeature.mqtt_tag st) = false ->
      let s1 := TimeViewFeature.session save st batches1 in
      let s2 := TimeViewFeature.session save (fst s1) batches2 in
      Forall (fun f => TimeViewFeature.f_filename f = TimeViewFeature.filename_of c)
             (TimeViewFeature.frames (snd s1))
      /\ Forall (fun f => TimeViewFeature.f_filename f
                          = TimeViewFeature.filename_of (c + 1))
                (TimeViewFeature.frames (snd s2))
      /\ TimeViewFeature.is_saving (fst s2) = false
      /\ TimeViewFeature.filename_counter (fst s2) = c + 2)
  /\ TimeViewFeature.filename_of c <> TimeViewFeature.filename_of (c + 1)
  /\ (TimeViewFeature.filename_counter (TimeViewFeature.init "plant") = 1
      /\ TimeViewFeature.filename_of 1 = "data1"%string
      /\ TimeViewFeature.filename_of 2 = "data2"%string).
Proof.
  intros c. split; [|split; [|split; [|split; [|split]]]].
  - intros Hinv st1. subst st1. unfold TimeViewFeature.start_saving.
    rewrite Hinv. cbn. repeat split.
  - intros Hvalid st1 text. subst st1 text. unfold TimeViewFeature.start_saving.
    rewrite Hvalid. cbn. repeat split.
  - cbn. repeat split. eexists. reflexivity.
  - intros Hvalid s1 s2.
    destruct (session_recording save st batches1 Hvalid) as [_ [Hc1 [Ht1 Hf1]]].
    fold s1 in Hc1, Ht1, Hf1.
    assert (Hvalid1 : TimeViewFeature.invalid_tag
                        (TimeViewFeature.mqtt_tag (fst s1)) = false)
      by (rewrite Ht1; exact Hvalid).
    destruct (session_recording save (fst s1) batches2 Hvalid1)
      as [Hs2 [Hc2 [_ Hf2]]].
    fold s2 in Hs2, Hc2, Hf2. rewrite Hc1 in Hf2, Hc2. fold c in Hf2, Hc2.
    repeat split; auto. lia.
  - intros H. apply filename_of_inj in H. lia.
  - repeat split.
Qed.

Lemma recording_start_stop_witness :
  let save := fun (_ : string) (_ : TimeViewFeature.frame) => (true, "ok"%string) in
  let st := TimeViewFeature.setup_time_view_plot (TimeViewFeature.init "plant") "tag1" in
  let s1 := TimeViewFeature.session save st [([1; 2; 3; 4], "t1"%string)] in
  let s2 := TimeViewFeature.session save (fst s1) [] in
  TimeViewFeature.invalid_tag (TimeViewFeature.mqtt_tag st) = false
  /\ map TimeViewFeature.f_filename (TimeViewFeature.frames (snd s1)) = ["data1"%string]
  /\ TimeViewFeature.filename_counter (fst s2) = 3.
Proof.
  intros save st s1 s2. split; [reflexivity|]. split; [reflexivity|].
  destruct (recording_start_stop save st [([1; 2; 3; 4], "t1"%string)] [])
    as [_ [_ [_ [H _]]]].
  destruct (H eq_refl) as [_ [_ [_ Hc]]]. exact Hc.
Defined.

(** C7. A batch consumed while recording submits exactly one frame to the
    storage collaborator, carrying the current frame index (and the session's
    file name, the first [4096*4] converted values and the timestamp). When
    the submission succeeds the frame index is incremented. When it fails the
    error is written to the status box and the recording state is untouched:
    [is_saving] stays true, frame index and file-name counter keep their
    values. *)
Theorem split_and_store_values_frame
    (save : string -> TimeViewFeature.frame -> bool * string)
    (st : TimeViewFeature.state) (values : list Z) (timestamp : string) :
  TimeViewFeature.is_saving st = true ->
  let r := TimeViewFeature.split_and_store_values save st values timestamp in
  exists f,
    snd r = [TimeViewFeature.SaveTimeviewMessage (TimeViewFeature.project_name st) f]
    /\ TimeViewFeature.f_frameIndex f = TimeViewFeature.frame_index st
    /\ TimeViewFeature.f_filename f
       = TimeViewFeature.filename_of (TimeViewFeature.filename_counter st)
    /\ TimeViewFeature.f_topic f = TimeViewFeature.mqtt_tag st
    /\ TimeViewFeature.f_message f
       = firstn (Nat.min (List.length values) (4096 * 4)) (map PyFloat.of_int values)
    /\ TimeViewFeature.f_createdAt f = timestamp
    /\ TimeViewFeature.is_saving (fst r) = true
    /\ TimeViewFeature.filename_counter (fst r) = TimeViewFeature.filename_counter st
    /\ TimeViewFeature.mqtt_tag (fst r) = TimeViewFeature.mqtt_tag st
    /\ (fst (save (TimeViewFeature.project_name st) f) = true ->
        TimeViewFeature.frame_index (fst r) = TimeViewFeature.frame_index st + 1)
    /\ (fst (save (TimeViewFeature.project_name st) f) = false ->
        TimeViewFeature.frame_index (fst r) = TimeViewFeature.frame_index st
        /\ TimeViewFeature.time_result (fst r)
           = [("Error saving data: "
               ++ snd (save (TimeViewFeature.project_name st) f))%string]).
Proof.
  intros Hs r. subst r. unfold TimeViewFeature.split_and_store_values.
  destruct (fold_left _ _ _) as [b ts].
  cbn [TimeViewFeature.is_saving TimeViewFeature.set_buffers
       TimeViewFeature.project_name TimeViewFeature.mqtt_tag
       TimeViewFeature.frame_index TimeViewFeature.data_rate
       TimeViewFeature.filename_counter].
  rewrite Hs, length_map, max_values_eq.
  match goal with |- context [save ?p ?f] =>
    exists f; destruct (save p f) as [[|] msg] end;
    cbn [fst snd TimeViewFeature.f_frameIndex TimeViewFeature.f_filename
         TimeViewFeature.f_topic TimeViewFeature.f_message
         TimeViewFeature.f_createdAt TimeViewFeature.is_saving
         TimeViewFeature.filename_counter TimeViewFeature.mqtt_tag
         TimeViewFeature.frame_index TimeViewFeature.time_result
         TimeViewFeature.set_frame_index TimeViewFeature.appendText
         TimeViewFeature.setText TimeViewFeature.project_name];
    repeat split; try discriminate; assumption.
Qed.

Lemma split_and_store_values_frame_witness :
  let save := fun (_ : string) (_ : TimeViewFeature.frame) =>
                (false, "storage offline"%string) in
  let st := fst (TimeViewFeature.start_saving
                   (TimeViewFeature.setup_time_view_plot
                      (TimeViewFeature.init "plant") "tag1")) in
  let r := TimeViewFeature.split_and_store_values save st [1; 2; 3; 4] "t1" in
  TimeViewFeature.is_saving st = true
  /\ List.length (TimeViewFeature.frames (snd r)) = 1%nat
  /\ TimeViewFeature.is_saving (fst r) = true
  /\ TimeViewFeature.frame_index (fst r) = 0.
Proof.
  intros save st r. split; [reflexivity|].
  destruct (split_and_store_values_frame save st [1; 2; 3; 4] "t1" eq_refl)
    as [f [Hf [_ [_ [_ [_ [_ [Hs [_ [_ [_ Hfail]]]]]]]]]]].
  fold r in Hf, Hs, Hfail. rewrite Hf. split; [reflexivity|].
  split; [exact Hs|]. destruct (Hfail eq_refl) as [Hi _]. exact Hi.
Defined.

(** ** Facts on binary64 arithmetic *)

Lemma SFcompare_swap x y : SFcompare y x = option_map CompOpp (SFcompare x y).
Proof.
  destruct x as [sx|sx| |sx mx ex], y as [sy|sy| |sy my ey];
    try reflexivity; try (destruct sx; reflexivity); try (destruct sy; reflexivity);
    try (destruct sx, sy; reflexivity).
  destruct sx, sy; cbn [SFcompare option_map]; try reflexivity; f_equal;
    rewrite (Z.compare_antisym ex ey);
    destruct (ex ?= ey); cbn [CompOpp]; try reflexivity.
  - now rewrite (Pos.compare_cont_antisym mx my Eq).
  - now rewrite (Pos.compare_cont_antisym mx my Eq).
Qed.

Lemma eqb_sym x y : PyFloat.eqb x y = PyFloat.eqb y x.
Proof.
  unfold PyFloat.eqb, SFeqb. rewrite (SFcompare_swap y x).
  destruct (SFcompare y x) as [[| |]|]; reflexivity.
Qed.

Lemma shr_1_nonneg mrs : 0 <= shr_m mrs -> 0 <= shr_m (shr_1 mrs).
Proof.
  destruct mrs as [m r s]. cbn [shr_m]. intros H.
  destruct m as [|[p|p|]|p]; cbn; lia.
Qed.

Lemma iter_pos_invariant {A} (P : A -> Prop) (f : A -> A) :
  (forall a, P a -> P (f a)) -> forall n a, P a -> P (iter_pos f n a).
Proof.
  intros Hf. induction n as [n IH|n IH|]; intros a Ha; cbn [iter_pos]; auto.
Qed.

Lemma shr_fexp_nonneg prec emax m e l :
  0 <= m -> 0 <= shr_m (fst (shr_fexp prec emax m e l)).
Proof.
  intros Hm. unfold shr_fexp, shr.
  assert (H0 : 0 <= shr_m (shr_record_of_loc m l))
    by (destruct l as [|[| |]]; exact Hm).
  destruct (fexp prec emax (Zdigits2 m + e) - e) as [|p|p]; cbn [fst]; auto.
  apply (iter_pos_invariant (fun mrs => 0 <= shr_m mrs)); auto using shr_1_nonneg.
Qed.

Lemma round_nearest_even_nonneg m l : 0 <= m -> 0 <= round_nearest_even m l.
Proof.
  intros H. destruct l as [|[| |]]; cbn [round_nearest_even]; try lia.
  destruct (Z.even m); lia.
Qed.

Lemma binary_round_aux_signed prec emax sx mx ex lx :
  0 <= mx -> PyFloat.signed sx (binary_round_aux prec emax sx mx ex lx).
Proof.
  intros Hm. unfold binary_round_aux.
  pose proof (shr_fexp_nonneg prec emax mx ex lx Hm) as H1.
  destruct (shr_fexp prec emax mx ex lx) as [mrs' e']. cbn [fst] in H1.
  pose proof (shr_fexp_nonneg prec emax _ e' loc_Exact
                (round_nearest_even_nonneg _ (loc_of_shr_record mrs') H1)) as H2.
  destruct (shr_fexp prec emax _ e' loc_Exact) as [mrs'' e'']. cbn [fst] in H2.
  destruct (shr_m mrs'') as [|p|p]; cbn [PyFloat.signed]; try reflexivity; try lia.
  destruct (e'' <=? emax - prec); reflexivity.
Qed.

Lemma of_int_negative p : PyFloat.signed true (PyFloat.of_int (Zneg p)).
Proof.
  unfold PyFloat.of_int, binary_normalize, binary_round.
  destruct (shl_align _ _ _) as [mz ez]. apply binary_round_aux_signed. lia.
Qed.

Lemma div_negative x y :
  PyFloat.signed true x -> PyFloat.signed false y -> PyFloat.signed true (PyFloat.div x y) \/ PyFloat.div x y = S754_nan.
Proof.
  destruct x as [sx|sx| |sx mx ex], y as [sy|sy| |sy my ey];
    cbn [PyFloat.signed]; intros Hx Hy; subst; try tauto; cbn; auto.
  left. unfold PyFloat.div. cbn [SFdiv xorb].
  destruct (SFdiv_core_binary _ _ _ _ _ _) as [[mz ez] lz] eqn:E.
  apply binary_round_aux_signed.
  unfold SFdiv_core_binary in E.
  match type of E with context [Z.div_eucl ?a ?b] =>
    pose proof (Z.div_eucl_eq a b ltac:(lia));
    pose proof (Z.mod_pos_bound a b ltac:(lia)) as Hb;
    assert (Ha : 0 <= a); [|unfold Z.modulo in Hb; destruct (Z.div_eucl a b) as [q r]]
  end.
  - destruct (ex - ey - _) eqn:Es; try lia. rewrite Z.shiftl_mul_pow2 by lia.
    pose proof (Z.pow_pos_nonneg 2 (Z.pos p)). lia.
  - injection E as <- _ _. nia.
Qed.

Lemma total_seconds_nonpositive us :
  us <= 0 ->
  PyFloat.gtb (TimeViewFeature.total_seconds us) (PyFloat.of_int 0) = false.
Proof.
  intros Hus. destruct us as [|p|p]; [reflexivity|lia|].
  unfold TimeViewFeature.total_seconds.
  destruct (div_negative (PyFloat.of_int (Z.neg p)) (PyFloat.of_int 1000000)
              (of_int_negative p) eq_refl) as [H|H].
  - destruct (PyFloat.div _ _) as [s|s| |s m e]; cbn [PyFloat.signed] in H;
      subst; reflexivity || contradiction.
  - rewrite H. reflexivity.
Qed.

(** ** Rate estimator *)

Lemma split_and_store_rate save st values timestamp :
  let r := TimeViewFeature.split_and_store_values save st values timestamp in
  TimeViewFeature.data_rate (fst r) = TimeViewFeature.data_rate st
  /\ TimeViewFeature.last_data_time (fst r) = TimeViewFeature.last_data_time st.
Proof.
  unfold TimeViewFeature.split_and_store_values.
  destruct (fold_left _ _ _) as [b ts].
  destruct (TimeViewFeature.is_saving _); [|split; reflexivity].
  destruct (save _ _) as [[|] msg]; split; reflexivity.
Qed.

(** C5, as the code has it. A message whose tag is not the selected one is
    ignored: rate, last arrival instant and every other field keep their
    values. A message of the selected tag records its arrival instant and
    sets the rate to [values_count / elapsed_seconds / 4]; the rate keeps its
    prior value when no previous arrival is recorded or when the elapsed time
    is not positive, in particular whenever the clock did not advance. The
    rate starts at 1.0. *)
Theorem on_data_received_rate
    (save : string -> TimeViewFeature.frame -> bool * string)
    (isoformat : Z -> string)
    (st : TimeViewFeature.state) (tag_name : string) (values : list Z) (now : Z) :
  let r := TimeViewFeature.on_data_received save isoformat st tag_name values now in
  let selected :=
    negb (TimeViewFeature.other_tag tag_name (TimeViewFeature.mqtt_tag st)) in
  TimeViewFeature.data_rate (fst r) =
    (if selected
     then Reference.rate_as_stated (TimeViewFeature.data_rate st)
            (TimeViewFeature.last_data_time st) now (List.length values)
     else TimeViewFeature.data_rate st)
  /\ TimeViewFeature.last_data_time (fst r) =
     (if selected then Some now else TimeViewFeature.last_data_time st)
  /\ (if selected then True else r = (st, []))
  /\ (forall prior last count, now <= last ->
        Reference.rate_as_stated prior (Some last) now count = prior)
  /\ TimeViewFeature.data_rate (TimeViewFeature.init "plant") = PyFloat.f1_0.
Proof.
  intros r selected. subst r selected. unfold TimeViewFeature.on_data_received.
  destruct (TimeViewFeature.other_tag tag_name (TimeViewFeature.mqtt_tag st));
    cbn [negb fst].
  - repeat split. intros prior last count Hle. unfold Reference.rate_as_stated.
    cbv zeta. rewrite total_seconds_nonpositive by lia. reflexivity.
  - match goal with |- context [TimeViewFeature.split_and_store_values save ?s _ _] =>
      destruct (split_and_store_rate save s values (isoformat now)) as [Hr Hl] end.
    rewrite Hr, Hl. split; [|split; [reflexivity|split; [exact I|split]]].
    + unfold Reference.rate_as_stated.
      destruct (TimeViewFeature.last_data_time st) as [last|]; [|reflexivity].
      cbv zeta. destruct (PyFloat.gtb _ _); reflexivity.
    + intros prior last count Hle. unfold Reference.rate_as_stated.
      cbv zeta. rewrite total_seconds_nonpositive by lia. reflexivity.
    + reflexivity.
Qed.

Lemma on_data_received_rate_witness :
  let save := fun (_ : string) (_ : TimeViewFeature.frame) => (true, "ok"%string) in
  let st0 := TimeViewFeature.setup_time_view_plot (TimeViewFeature.init "plant") "tag1" in
  let st1 := fst (TimeViewFeature.on_data_received save (fun _ => "t"%string)
                    st0 "tag1" [1; 2; 3; 4] 0) in
  let st2 := fst (TimeViewFeature.on_data_received save (fun _ => "t"%string)
                    st1 "tag1" [1; 2; 3; 4; 5; 6; 7; 8] 1000000) in
  TimeViewFeature.data_rate st1 = PyFloat.of_int 1
  /\ TimeViewFeature.data_rate st2 = PyFloat.of_int 2
  /\ Reference.rate_as_stated (PyFloat.of_int 2) (Some 1000000) 1000000 8
     = PyFloat.of_int 2.
Proof.
  intros save st0 st1 st2.
  destruct (on_data_received_rate save (fun _ => "t"%string) st0 "tag1"
              [1; 2; 3; 4] 0) as [H1 _].
  destruct (on_data_received_rate save (fun _ => "t"%string) st1 "tag1"
              [1; 2; 3; 4; 5; 6; 7; 8] 1000000) as [H2 [_ [_ [H3 _]]]].
  split; [exact H1|]. split; [exact H2|]. apply H3. lia.
Defined.

(** C5 as stated fails on a message for another tag: one second after a
    message of the selected tag, eight values arrive for a different tag; the
    stated rule gives 8 / 1.0 / 4 = 2.0, the code keeps the rate 1.0. *)
Lemma on_data_received_other_tag_counterexample :
  let save := fun (_ : string) (_ : TimeViewFeature.frame) => (true, "ok"%string) in
  let st0 := TimeViewFeature.setup_time_view_plot (TimeViewFeature.init "plant") "tag1" in
  let st1 := fst (TimeViewFeature.on_data_received save (fun _ => "t"%string)
                    st0 "tag1" [1; 2; 3; 4] 0) in
  let st2 := fst (TimeViewFeature.on_data_received save (fun _ => "t"%string)
                    st1 "tag2" [1; 2; 3; 4; 5; 6; 7; 8] 1000000) in
  TimeViewFeature.last_data_time st1 = Some 0
  /\ Reference.rate_as_stated (TimeViewFeature.data_rate st1)
       (TimeViewFeature.last_data_time st1) 1000000 8 = PyFloat.of_int 2
  /\ TimeViewFeature.data_rate st2 = PyFloat.of_int 1
  /\ TimeViewFeature.data_rate st2 <>
     Reference.rate_as_stated (TimeViewFeature.data_rate st1)
       (TimeViewFeature.last_data_time st1) 1000000 8.
Proof.
  intros save st0 st1 st2. repeat split; try (vm_compute; reflexivity).
  vm_compute. discriminate.
Qed.

(** ** Adaptive resize *)

(** C4, as the code has it. The resize check does nothing unless the rate is
    positive. With a positive rate the new channel capacity is
    [max(int(rate * 1.0 * 2), 100)], the product being truncated to an
    integer. When it differs from the capacity of channel buffer 0, the four
    channel buffers are rebuilt with that capacity and the timestamp buffer
    with four times it, each keeping its most recent elements; otherwise
    nothing changes. A rate of 200 gives capacities 400 and 1600. *)
Theorem adjust_buffer_size_capacity (st : TimeViewFeature.state) :
  let rate := TimeViewFeature.data_rate st in
  let b := TimeViewFeature.time_view_buffers st in
  let current := Deque.maxlen (TimeViewFeature.buf0 b) in
  let st200 := TimeViewFeature.set_data_rate (TimeViewFeature.init "plant")
                 (PyFloat.of_int 200) in
  (PyFloat.gtb rate (PyFloat.of_int 0) = false ->
     TimeViewFeature.adjust_buffer_size st = Some st)
  /\ (forall n,
        PyFloat.gtb rate (PyFloat.of_int 0) = true ->
        PyFloat.to_int (PyFloat.mul (PyFloat.mul rate PyFloat.f1_0) (PyFloat.of_int 2))
          = Some n ->
        let cap := Z.max n 100 in
        exists st',
          TimeViewFeature.adjust_buffer_size st = Some st'
          /\ (cap = current -> st' = st)
          /\ (cap <> current ->
              let b' := TimeViewFeature.time_view_buffers st' in
              map Deque.maxlen
                  [TimeViewFeature.buf0 b'; TimeViewFeature.buf1 b';
                   TimeViewFeature.buf2 b'; TimeViewFeature.buf3 b']
                = [cap; cap; cap; cap]
              /\ map Deque.items
                     [TimeViewFeature.buf0 b'; TimeViewFeature.buf1 b';
                      TimeViewFeature.buf2 b'; TimeViewFeature.buf3 b']
                 = map (fun d => Deque.trim cap (Deque.items d))
                       [TimeViewFeature.buf0 b; TimeViewFeature.buf1 b;
                        TimeViewFeature.buf2 b; TimeViewFeature.buf3 b]
              /\ Deque.maxlen (TimeViewFeature.time_view_timestamps st') = cap * 4
              /\ Deque.items (TimeViewFeature.time_view_timestamps st')
                 = Deque.trim (cap * 4)
                     (Deque.items (TimeViewFeature.time_view_timestamps st))
              /\ TimeViewFeature.data_rate st' = rate))
  /\ option_map
       (fun s => (map Deque.maxlen
                    [TimeViewFeature.buf0 (TimeViewFeature.time_view_buffers s);
                     TimeViewFeature.buf1 (TimeViewFeature.time_view_buffers s);
                     TimeViewFeature.buf2 (TimeViewFeature.time_view_buffers s);
                     TimeViewFeature.buf3 (TimeViewFeature.time_view_buffers s)],
                  Deque.maxlen (TimeViewFeature.time_view_timestamps s)))
       (TimeViewFeature.adjust_buffer_size st200)
     = Some ([400; 400; 400; 400], 1600).
Proof.
  intros rate b current st200. split; [|split].
  - intros Hr. unfold TimeViewFeature.adjust_buffer_size. fold rate.
    now rewrite Hr.
  - intros n Hr Hn cap. unfold TimeViewFeature.adjust_buffer_size.
    fold rate. rewrite Hr, Hn. fold b current cap.
    destruct (Z.eqb_spec cap current) as [E|E]; cbn [negb].
    + exists st. split; [reflexivity|]. split; [reflexivity|]. contradiction.
    + eexists. split; [reflexivity|]. split; [contradiction|]. intros _.
      cbn [TimeViewFeature.time_view_buffers TimeViewFeature.set_buffers
           TimeViewFeature.time_view_timestamps TimeViewFeature.data_rate
           TimeViewFeature.resize_buffers TimeViewFeature.buf0
           TimeViewFeature.buf1 TimeViewFeature.buf2 TimeViewFeature.buf3 map].
      rewrite !maxlen_make, !items_make. repeat split.
  - vm_compute. reflexivity.
Qed.

Lemma adjust_buffer_size_capacity_witness :
  let save := fun (_ : string) (_ : TimeViewFeature.frame) => (true, "ok"%string) in
  let st := TimeViewFeature.set_data_rate
              (fst (TimeViewFeature.split_and_store_values save
                      (TimeViewFeature.init "plant") [1; 2; 3; 4; 5; 6; 7; 8] "t"))
              (PyFloat.of_int 200) in
  PyFloat.gtb (TimeViewFeature.data_rate st) (PyFloat.of_int 0) = true
  /\ exists st',
       TimeViewFeature.adjust_buffer_size st = Some st'
       /\ Deque.maxlen (TimeViewFeature.time_view_timestamps st') = 1600
       /\ Deque.maxlen (TimeViewFeature.buf0 (TimeViewFeature.time_view_buffers st'))
          = 400.
Proof.
  intros save st. split; [reflexivity|].
  destruct (adjust_buffer_size_capacity st) as [_ [H _]].
  destruct (H 400 eq_refl eq_refl) as [st' [Hrun [_ Hnew]]].
  exists st'. split; [exact Hrun|].
  assert (Hne : Z.max 400 100 <> 4096) by discriminate.
  destruct (Hnew Hne) as [Hcaps [_ [Hts _]]].
  split; [exact Hts|]. now injection Hcaps.
Defined.

(** C4 as stated fails in two ways. With rate 150.75 the stated capacity
    [max(150.75 * 1.0 * 2, 100)] is 301.5 while the buffers get capacity 301.
    With rate 0 the stated capacity is 100, different from the current 4096,
    yet no buffer is reallocated. *)
Lemma adjust_buffer_size_counterexample :
  let capacity_after := fun st =>
    option_map (fun s => Deque.maxlen
                           (TimeViewFeature.buf0 (TimeViewFeature.time_view_buffers s)))
               (TimeViewFeature.adjust_buffer_size st) in
  let fractional := TimeViewFeature.set_data_rate (TimeViewFeature.init "plant")
                      (PyFloat.div (PyFloat.of_int 603) (PyFloat.of_int 4)) in
  let idle := TimeViewFeature.set_data_rate (TimeViewFeature.init "plant")
                (PyFloat.of_int 0) in
  (capacity_after fractional = Some 301
   /\ Reference.capacity_as_stated (TimeViewFeature.data_rate fractional)
      = PyFloat.div (PyFloat.of_int 603) (PyFloat.of_int 2)
   /\ PyFloat.of_int 301
      <> Reference.capacity_as_stated (TimeViewFeature.data_rate fractional))
  /\ (capacity_after idle = Some 4096
      /\ Reference.capacity_as_stated (TimeViewFeature.data_rate idle)
         = PyFloat.of_int 100
      /\ PyFloat.of_int 4096
         <> Reference.capacity_as_stated (TimeViewFeature.data_rate idle)).
Proof.
  intros capacity_after fractional idle.
  repeat split; try (vm_compute; reflexivity); vm_compute; discriminate.
Qed.

(** ** Tick generation *)

Lemma tick_loop_enumerated : forall fuel current step y_max ticks,
  TimeViewFeature.tick_loop fuel current step y_max = Some ticks <->
  (List.length ticks < fuel)%nat
  /\ Reference.ticks_enumerated current step y_max ticks.
Proof.
  unfold Reference.ticks_enumerated.
  induction fuel as [|fuel IH]; intros current step y_max ticks.
  - cbn [TimeViewFeature.tick_loop]. split; [discriminate|]. intros [H _]. lia.
  - cbn [TimeViewFeature.tick_loop].
    destruct (PyFloat.leb current y_max) eqn:Hle.
    + destruct ticks as [|t ticks].
      * split.
        -- destruct (TimeViewFeature.tick_loop _ _ _ _); discriminate.
        -- intros [_ [_ Hend]]. cbn in Hend. congruence.
      * specialize (IH (PyFloat.add current step) step y_max ticks).
        split.
        -- destruct (TimeViewFeature.tick_loop _ _ _ _) as [ts|]; [|discriminate].
           intros H. injection H as <- <-.
           destruct (proj1 IH eq_refl) as [Hlen [Hk Hend]].
           split; [cbn [List.length]; lia|]. split.
           ++ intros [|k] Hlt; [split; [reflexivity | exact Hle]|].
              cbn [nth]. rewrite Nat.iter_succ_r. apply Hk.
              cbn [List.length] in Hlt. lia.
           ++ cbn [List.length]. rewrite Nat.iter_succ_r. exact Hend.
        -- intros [Hlen [Hk Hend]].
           destruct (Hk 0%nat ltac:(cbn [List.length]; lia)) as [Ht _].
           cbn in Ht. subst t.
           rewrite (proj2 IH); [reflexivity|].
           split; [cbn [List.length] in Hlen; lia|]. split.
           ++ intros k Hlt.
              specialize (Hk (S k) ltac:(cbn [List.length]; lia)).
              rewrite Nat.iter_succ_r in Hk. exact Hk.
           ++ cbn [List.length] in Hend. rewrite Nat.iter_succ_r in Hend.
              exact Hend.
    + split.
      * intros H. injection H as <-. split; [cbn; lia|]. split.
        -- intros k Hk. cbn in Hk. lia.
        -- exact Hle.
      * intros [_ [Hk Hend]]. destruct ticks as [|t ticks]; [reflexivity|].
        destruct (Hk 0%nat ltac:(cbn [List.length]; lia)) as [Ht Hle'].
        cbn in Ht, Hle'. congruence.
Qed.

Lemma generate_y_ticks_finite fuel v vs :
  forallb PyFloat.isfinite (v :: vs) = true ->
  TimeViewFeature.generate_y_ticks fuel (v :: vs) =
  let (y_min, y_max) := Reference.padded_range v vs in
  let step := Reference.tick_step y_min y_max in
  TimeViewFeature.tick_loop fuel
    (PyFloat.mul (PyFloat.floor (PyFloat.div y_min step)) step) step y_max.
Proof.
  intros Hfin. unfold TimeViewFeature.generate_y_ticks. rewrite Hfin.
  cbn [negb]. unfold Reference.padded_range, Reference.tick_step,
    Reference.round_up_half, PyFloat.neqb.
  fold PyFloat.eqb. rewrite (eqb_sym (PyFloat.py_max v vs) (PyFloat.py_min v vs)).
  destruct (PyFloat.eqb (PyFloat.py_min v vs) (PyFloat.py_max v vs));
    reflexivity.
Qed.

(** C8. On an empty value set, or one with a non-finite entry, tick
    generation returns the default ticks 0,10,...,90 and the axis gets the
    range [0,100]. On a non-empty all-finite value set the result is the
    enumeration the specification describes: minimum and maximum are padded
    by 1.0 when equal and by 10% of their distance otherwise, the step is
    max(range/10, 1) rounded up to a multiple of 0.5, and the ticks start at
    floor(y_min/step)*step and advance by the step while they do not exceed
    y_max; any fuel above the number of ticks yields it. On [10,10] the
    bounds are 9 and 11, the step is 1 and the ticks are 9, 10, 11. *)
Theorem generate_y_ticks_spec (fuel : nat) (values : list PyFloat.float) :
  ((values = [] \/ forallb PyFloat.isfinite values = false) ->
     TimeViewFeature.generate_y_ticks fuel values = Some Reference.default_ticks
     /\ TimeViewFeature.update_y_axis fuel values
        = Some ((PyFloat.of_int 0, PyFloat.of_int 100), Reference.default_ticks))
  /\ (forall v vs ticks,
        values = v :: vs -> forallb PyFloat.isfinite values = true ->
        let (y_min, y_max) := Reference.padded_range v vs in
        let step := Reference.tick_step y_min y_max in
        let start := PyFloat.mul (PyFloat.floor (PyFloat.div y_min step)) step in
        TimeViewFeature.generate_y_ticks fuel values = Some ticks <->
        (List.length ticks < fuel)%nat
        /\ Reference.ticks_enumerated start step y_max ticks)
  /\ ((4 <= fuel)%nat ->
      TimeViewFeature.generate_y_ticks fuel [PyFloat.of_int 10; PyFloat.of_int 10]
        = Some (map PyFloat.of_int [9; 10; 11]))
  /\ Reference.padded_range (PyFloat.of_int 10) [PyFloat.of_int 10]
     = (PyFloat.of_int 9, PyFloat.of_int 11)
  /\ Reference.tick_step (PyFloat.of_int 9) (PyFloat.of_int 11) = PyFloat.of_int 1.
Proof.
  split; [|split; [|split; [|split]]].
  - intros [-> | Hnf]; [split; reflexivity|].
    destruct values as [|v vs]; [split; reflexivity|].
    unfold TimeViewFeature.generate_y_ticks, TimeViewFeature.update_y_axis.
    rewrite Hnf. split; reflexivity.
  - intros v vs ticks -> Hfin. rewrite (generate_y_ticks_finite fuel v vs Hfin).
    destruct (Reference.padded_range v vs) as [y_min y_max].
    apply tick_loop_enumerated.
  - intros Hfuel.
    pose proof (generate_y_ticks_finite 4 (PyFloat.of_int 10) [PyFloat.of_int 10]
                  eq_refl) as H4.
    rewrite (generate_y_ticks_finite fuel (PyFloat.of_int 10) [PyFloat.of_int 10]
               eq_refl).
    destruct (Reference.padded_range (PyFloat.of_int 10) [PyFloat.of_int 10])
      as [y_min y_max].
    cbv zeta in *.
    assert (Hrun : TimeViewFeature.generate_y_ticks 4
                     [PyFloat.of_int 10; PyFloat.of_int 10]
                   = Some (map PyFloat.of_int [9; 10; 11]))
      by (vm_compute; reflexivity).
    rewrite H4 in Hrun. apply tick_loop_enumerated in Hrun.
    apply tick_loop_enumerated. destruct Hrun as [_ Henum].
    split; [cbn [List.length map]; lia | exact Henum].
  - vm_compute. reflexivity.
  - vm_compute. reflexivity.
Qed.

Lemma generate_y_ticks_spec_witness :
  let values := [PyFloat.of_int 0; PyFloat.of_int 10] in
  forallb PyFloat.isfinite values = true
  /\ Reference.padded_range (PyFloat.of_int 0) [PyFloat.of_int 10]
     = (PyFloat.of_int (-1), PyFloat.of_int 11)
  /\ exists ticks,
       TimeViewFeature.generate_y_ticks 12 values = Some ticks
       /\ List.length ticks = 9%nat
       /\ Reference.ticks_enumerated
            (PyFloat.div (PyFloat.of_int (-3)) (PyFloat.of_int 2))
            (PyFloat.div (PyFloat.of_int 3) (PyFloat.of_int 2))
            (PyFloat.of_int 11) ticks.
Proof.
  intros values. split; [reflexivity|]. split; [vm_compute; reflexivity|].
  destruct (TimeViewFeature.generate_y_ticks 12 values) as [ticks|] eqn:E;
    [|vm_compute in E; discriminate].
  exists ticks. split; [reflexivity|].
  destruct (generate_y_ticks_spec 12 values) as [_ [H _]].
  specialize (H (PyFloat.of_int 0) [PyFloat.of_int 10] ticks eq_refl eq_refl).
  vm_compute in E. injection E as <-.
  split; [reflexivity|]. exact (proj2 (proj1 H eq_refl)).
Defined.

(** * Further properties of the code *)

(** ** Encoder *)


Lemma byte_val_of_Z z : 0 <= z <= 255 -> Struct.byte_val (Struct.byte_of_Z z) = z.
Proof.
  intros Hz. unfold Struct.byte_val, Struct.byte_of_Z.
  destruct (Byte.of_N (Z.to_N z)) as [b|] eqn:E.
  - apply Byte.to_of_N in E. rewrite E. lia.
  - apply Byte.of_N_None_iff in E. lia.
Qed.

Lemma word_of_bytes o v :
  0 <= v <= 65535 ->
  exists b0 b1, Struct.bytes_of o v = [b0; b1] /\ Struct.word_of o b0 b1 = v.
Proof.
  intros Hv.
  assert (H0 : 0 <= v mod 256 <= 255) by (pose proof (Z.mod_pos_bound v 256); lia).
  assert (H1 : 0 <= v / 256 <= 255).
  { split; [apply Z.div_pos; lia|]. apply Z.lt_succ_r, Z.div_lt_upper_bound; lia. }
  pose proof (Z.div_mod v 256 ltac:(lia)) as Hdm.
  destruct o; cbn [Struct.bytes_of Struct.word_of]; eexists; eexists;
    (split; [reflexivity|]); rewrite !byte_val_of_Z by assumption; lia.
Qed.

Lemma pack_words_spec o : forall values,
  (Forall (fun v => 0 <= v <= 65535) values ->
   exists bs, Struct.pack_words o values = Some bs
              /\ List.length bs = (2 * List.length values)%nat
              /\ Struct.unpack_words o bs = Some values)
  /\ (Struct.pack_words o values <> None ->
      Forall (fun v => 0 <= v <= 65535) values).
Proof.
  induction values as [|v rest [IH1 IH2]]; split.
  - intros _. exists []. repeat split.
  - intros _. constructor.
  - intros Hall. inversion Hall as [|? ? Hv Hrest]; subst.
    destruct (IH1 Hrest) as [bs [Hp [Hl Hu]]].
    destruct (word_of_bytes o v Hv) as [b0 [b1 [Hb Hw]]].
    exists (b0 :: b1 :: bs). cbn [Struct.pack_words].
    replace ((0 <=? v) && (v <=? 65535)) with true
      by (symmetry; apply andb_true_iff; split; apply Z.leb_le; lia).
    rewrite Hp, Hb. split; [reflexivity|]. split; [cbn [List.length]; lia|].
    cbn [Struct.unpack_words]. now rewrite Hu, Hw.
  - cbn [Struct.pack_words].
    destruct ((0 <=? v) && (v <=? 65535)) eqn:Hr; [|congruence].
    apply andb_true_iff in Hr. destruct Hr as [Ha Hb].
    apply Z.leb_le in Ha, Hb.
    destruct (Struct.pack_words o rest); [|congruence].
    intros _. constructor; [lia|]. apply IH2. discriminate.
Qed.

(** X13. Encoding succeeds exactly when every value lies in 0..65535, and
    the message then has two bytes per value. *)
Theorem binary_message_defined (o : Struct.byte_order) (values : list Z) :
  (MQTTPublisher.binary_message o values <> None
   <-> Forall (fun v => 0 <= v <= 65535) values)
  /\ (forall bytes,
        MQTTPublisher.binary_message o values = Some bytes ->
        List.length bytes = (2 * List.length values)%nat).
Proof.
  unfold MQTTPublisher.binary_message, Struct.pack_H. rewrite Nat.eqb_refl.
  destruct (pack_words_spec o values) as [H1 H2]. split.
  - split; [exact H2|]. intros Hall. destruct (H1 Hall) as [bs [-> _]]. discriminate.
  - intros bytes Hp.
    assert (Hall : Forall (fun v => 0 <= v <= 65535) values)
      by (apply H2; congruence).
    destruct (H1 Hall) as [bs [Hp' [Hl _]]]. congruence.
Qed.

Lemma binary_message_defined_witness :
  MQTTPublisher.binary_message Struct.LittleEndian [1; 65535] = Some [x01; x00; xff; xff]
  /\ List.length [x01; x00; xff; xff] = 4%nat
  /\ MQTTPublisher.binary_message Struct.LittleEndian [1; 65536] = None.
Proof.
  split; [reflexivity|]. split; [|reflexivity].
  destruct (binary_message_defined Struct.LittleEndian [1; 65535]) as [_ H].
  exact (H [x01; x00; xff; xff] eq_refl).
Defined.

(** X14. What the publisher encodes the worker decodes: for values in
    0..65535 the encoded message decodes, with the same byte order, to the
    same values; the only exception is the empty list, whose (empty) message
    the decoder rejects as an empty payload. *)
Theorem encode_decode_roundtrip
    (o : Struct.byte_order) (values : list Z) :
  Forall (fun v => 0 <= v <= 65535) values ->
  exists bytes,
    MQTTPublisher.binary_message o values = Some bytes
    /\ snd (MQTTWorker.decode_payload o bytes) =
       match values with
       | [] => inl MQTTWorker.empty_error
       | _ :: _ => inr values
       end.
Proof.
  intros Hall. destruct (pack_words_spec o values) as [H1 _].
  destruct (H1 Hall) as [bs [Hp [Hl Hu]]].
  exists bs. unfold MQTTPublisher.binary_message, Struct.pack_H.
  rewrite Nat.eqb_refl. split; [exact Hp|].
  assert (Hodd : Nat.odd (List.length bs) = false).
  { rewrite Hl, <- Nat.negb_even, Nat.even_mul. reflexivity. }
  rewrite decode_payload_eq, Hodd.
  pose proof (unpack_words_even o bs Hodd) as Hu'.
  rewrite Hu in Hu'. injection Hu' as <-.
  destruct bs as [|b bs]; destruct values as [|v vs]; try reflexivity;
    cbn [List.length] in Hl; lia.
Qed.

Lemma encode_decode_roundtrip_witness :
  Forall (fun v => 0 <= v <= 65535) [16390; 46537]
  /\ exists bytes,
       MQTTPublisher.binary_message Struct.BigEndian [16390; 46537] = Some bytes
       /\ snd (MQTTWorker.decode_payload Struct.BigEndian bytes) = inr [16390; 46537].
Proof.
  assert (H : Forall (fun v => 0 <= v <= 65535) [16390; 46537])
    by (repeat constructor; lia).
  split; [exact H|].
  exact (encode_decode_roundtrip Struct.BigEndian [16390; 46537] H).
Defined.

(** ** Forwarding rule of [on_message] *)

(** X12. [on_message] forwards a message exactly when its payload has an
    even, non-zero number of bytes and the storage call reports success; the
    forwarded values are then the decoded samples. The storage call itself is
    made exactly when the payload has an even, non-zero number of bytes. *)
Theorem on_message_forwards_iff
    (o : Struct.byte_order) (w : MQTTWorker.worker)
    (db : string -> string -> list Z -> string -> MQTTWorker.db_result)
    (now : string) (msg : MQTTWorker.message) :
  let payload := MQTTWorker.payload msg in
  let values := Reference.samples_of o payload in
  let accepted :=
    match db (MQTTWorker.project_name w) (MQTTWorker.topic msg) values now with
    | MQTTWorker.Returns true _ => true
    | _ => false
    end in
  let trace := MQTTWorker.on_message o w db now msg in
  filter MQTTWorker.is_data trace =
    (if Nat.even (List.length payload) && negb (Nat.eqb (List.length payload) 0)
        && accepted
     then [MQTTWorker.Emit (MQTTWorker.data_received (MQTTWorker.topic msg) values)]
     else [])
  /\ filter MQTTWorker.is_update trace =
     (if Nat.even (List.length payload) && negb (Nat.eqb (List.length payload) 0)
      then [MQTTWorker.UpdateTagValue (MQTTWorker.project_name w)
              (MQTTWorker.topic msg) values now]
      else []).
Proof.
  intros payload values accepted trace.
  pose proof (decode_payload_eq o payload) as Hdec.
  rewrite <- Nat.negb_even in Hdec.
  destruct (Nat.even (List.length payload)) eqn:Heven; cbn [negb andb] in *.
  - destruct payload as [|b rest] eqn:Hp.
    + cbn [List.length Nat.eqb negb].
      pose proof (on_message_failed o w db now msg _
                    ltac:(fold payload; rewrite Hp; exact Hdec)) as Hlogs.
      split; apply filter_logs; auto.
    + cbn [List.length Nat.eqb negb]. rewrite <- Hp in *.
      destruct (on_message_decoded o w db now msg values
                  ltac:(fold payload; subst values; rewrite Hdec, Hp; reflexivity))
        as [pre [tail [Heq [Hpre Htail]]]].
      subst trace. rewrite Heq, !filter_app, !(filter_logs _ pre) by auto.
      subst accepted. cbn [app filter MQTTWorker.is_data MQTTWorker.is_update].
      destruct (db _ _ _ _) as [[|] m|e]; destruct Htail as [m' ->];
        split; reflexivity.
  - pose proof (on_message_failed o w db now msg _ Hdec) as Hlogs.
    split; apply filter_logs; auto.
Qed.

(** ** Publisher *)









(** ** Worker life cycle *)


Lemma subscribed_In i topic :
  MQTTWorker.subscribed i topic = true <-> In topic (MQTTWorker.subscribed_topics i).
Proof.
  unfold MQTTWorker.subscribed. rewrite existsb_exists. split.
  - intros [t [Hin Heq]]. apply String.eqb_eq in Heq. now subst.
  - intros Hin. exists topic. split; [exact Hin | apply String.eqb_refl].
Qed.

Lemma subscriptions_app t1 t2 :
  MQTTWorker.subscriptions (t1 ++ t2)
  = MQTTWorker.subscriptions t1 ++ MQTTWorker.subscriptions t2.
Proof. apply flat_map_app. Qed.

Lemma subscribe_one_eq i trace topic :
  MQTTWorker.subscribe_one (i, trace) topic =
  if negb (MQTTWorker.subscribed i topic)
  then (MQTTWorker.mk_instance (MQTTWorker.base i)
          (topic :: MQTTWorker.subscribed_topics i),
        trace ++ [MQTTWorker.Subscribe topic 1;
                  MQTTWorker.Do (MQTTWorker.Log MQTTWorker.INFO
                                   ("Subscribed to topic: " ++ topic))])
  else (i, trace).
Proof. reflexivity. Qed.

Lemma fold_subscribe : forall tags i trace,
  let r := fold_left MQTTWorker.subscribe_one tags (i, trace) in
  MQTTWorker.base (fst r) = MQTTWorker.base i
  /\ (forall t, In t (MQTTWorker.subscribed_topics (fst r))
                <-> In t (MQTTWorker.subscribed_topics i) \/ In t tags)
  /\ (NoDup (MQTTWorker.subscribed_topics i) ->
      NoDup (MQTTWorker.subscribed_topics (fst r)))
  /\ exists new,
       MQTTWorker.subscriptions (snd r) = MQTTWorker.subscriptions trace ++ new
       /\ NoDup new
       /\ forall t, In t new
                    <-> In t tags /\ ~ In t (MQTTWorker.subscribed_topics i).
Proof.
  induction tags as [|topic rest IH]; intros i trace; cbv zeta in *.
  - cbn. split; [reflexivity|]. split; [tauto|]. split; [auto|].
    exists []. rewrite app_nil_r. split; [reflexivity|].
    split; [constructor|]. cbn. tauto.
  - cbn [fold_left].
    rewrite subscribe_one_eq.
    destruct (MQTTWorker.subscribed i topic) eqn:Hsub; cbn [negb].
    + apply subscribed_In in Hsub.
      destruct (IH i trace) as [Hb [Hin [Hnd [new [Hs [Hn Hnew]]]]]].
      split; [exact Hb|]. split; [|split; [exact Hnd|]].
      * intros t. rewrite Hin. cbn [In]. intuition (subst; try tauto; auto).
      * exists new. split; [exact Hs|]. split; [exact Hn|].
        intros t. rewrite Hnew. cbn [In]. intuition (subst; try tauto; auto).
    + assert (Hnot : ~ In topic (MQTTWorker.subscribed_topics i)).
      { intros H. apply subscribed_In in H. congruence. }
      match goal with |- context [fold_left _ rest (?i1, ?t1)] =>
        destruct (IH i1 t1) as [Hb [Hin [Hnd [new [Hs [Hn Hnew]]]]]] end.
      cbn [MQTTWorker.base MQTTWorker.subscribed_topics] in Hb, Hin, Hnd, Hnew.
      split; [exact Hb|]. split; [|split].
      * intros t. rewrite Hin. cbn [In]. intuition.
      * intros Hd. apply Hnd. constructor; assumption.
      * exists (topic :: new). rewrite Hs, subscriptions_app.
        cbn [MQTTWorker.subscriptions flat_map app]. rewrite <- app_assoc.
        split; [reflexivity|]. split.
        -- constructor; [|exact Hn]. rewrite Hnew. cbn [In]. tauto.
        -- intros t. cbn [In]. rewrite Hnew. cbn [In].
           destruct (string_dec topic t) as [->|Hne]; intuition.
Qed.

Lemma fold_subscribe_noop : forall tags i trace,
  (forall t, In t tags -> In t (MQTTWorker.subscribed_topics i)) ->
  fold_left MQTTWorker.subscribe_one tags (i, trace) = (i, trace).
Proof.
  induction tags as [|topic rest IH]; intros i trace Hall; [reflexivity|].
  cbn [fold_left]. rewrite subscribe_one_eq.
  rewrite (proj2 (subscribed_In i topic)) by (apply Hall; now left).
  cbn [negb]. apply IH. intros t Ht. apply Hall. now right.
Qed.

(** X9. [subscribe_to_topics] subscribes exactly the project tags that are
    not yet in the subscription set, each of them once even when the tag list
    repeats it; afterwards the set is the old set plus the tags, without
    duplicates if it had none. Calling it again with the same tags
    subscribes nothing and leaves the set as it is. *)
Theorem subscribe_to_topics_idempotent
    (i : MQTTWorker.instance) (tags : list string) :
  let r := MQTTWorker.subscribe_to_topics i tags in
  MQTTWorker.base (fst r) = MQTTWorker.base i
  /\ (forall t, In t (MQTTWorker.subscribed_topics (fst r))
                <-> In t (MQTTWorker.subscribed_topics i) \/ In t tags)
  /\ NoDup (MQTTWorker.subscriptions (snd r))
  /\ (forall t, In t (MQTTWorker.subscriptions (snd r))
                <-> In t tags /\ ~ In t (MQTTWorker.subscribed_topics i))
  /\ (NoDup (MQTTWorker.subscribed_topics i) ->
      NoDup (MQTTWorker.subscribed_topics (fst r)))
  /\ fst (MQTTWorker.subscribe_to_topics (fst r) tags) = fst r
  /\ MQTTWorker.subscriptions (snd (MQTTWorker.subscribe_to_topics (fst r) tags)) = [].
Proof.
  intros r. subst r. destruct tags as [|topic rest].
  - cbn. repeat split; auto; try tauto. constructor.
  - set (tags := topic :: rest).
    change (MQTTWorker.subscribe_to_topics i tags)
      with (fold_left MQTTWorker.subscribe_one tags (i, [])).
    destruct (fold_subscribe tags i []) as [Hb [Hin [Hnd [new [Hs [Hn Hnew]]]]]].
    cbn [MQTTWorker.subscriptions flat_map app] in Hs.
    fold (MQTTWorker.subscriptions
            (snd (fold_left MQTTWorker.subscribe_one tags (i, [])))) in Hs.
    rewrite Hs.
    split; [exact Hb|]. split; [exact Hin|]. split; [exact Hn|].
    split; [exact Hnew|]. split; [exact Hnd|].
    change (MQTTWorker.subscribe_to_topics
              (fst (fold_left MQTTWorker.subscribe_one tags (i, []))) tags)
      with (fold_left MQTTWorker.subscribe_one tags
              (fst (fold_left MQTTWorker.subscribe_one tags (i, [])), [])).
    rewrite fold_subscribe_noop by (intros t Ht; apply Hin; now right).
    split; reflexivity.
Qed.

Lemma subscribe_to_topics_idempotent_witness :
  let i := MQTTWorker.mk_instance (MQTTWorker.init "plant") ["tag2"%string] in
  let r := MQTTWorker.subscribe_to_topics i ["tag1"; "tag2"; "tag1"; "tag3"]%string in
  NoDup (MQTTWorker.subscribed_topics i)
  /\ MQTTWorker.subscriptions (snd r) = ["tag1"; "tag3"]%string
  /\ NoDup (MQTTWorker.subscribed_topics (fst r)).
Proof.
  intros i r.
  assert (Hnd : NoDup (MQTTWorker.subscribed_topics i))
    by (repeat constructor; intros []).
  split; [exact Hnd|]. split; [reflexivity|].
  destruct (subscribe_to_topics_idempotent i
              ["tag1"; "tag2"; "tag1"; "tag3"]%string) as [_ [_ [_ [_ [H _]]]]].
  exact (H Hnd).
Defined.

(** X10. [stop] leaves the worker not running; when it was running the
    subscription set is emptied and [stopped] is emitted once, otherwise
    nothing is emitted. A second [stop] does nothing. A retry that reads the
    flag of a stopped worker makes no connection attempt at all. *)
Theorem stop_is_idempotent (i : MQTTWorker.instance) :
  let r := MQTTWorker.stop i in
  MQTTWorker.running (MQTTWorker.base (fst r)) = false
  /\ (MQTTWorker.running (MQTTWorker.base i) = true ->
      MQTTWorker.subscribed_topics (fst r) = [])
  /\ MQTTWorker.emissions (snd r)
     = (if MQTTWorker.running (MQTTWorker.base i) then [MQTTWorker.stopped] else [])
  /\ MQTTWorker.stop (fst r) = (fst r, [])
  /\ (forall connect_outcome fuel,
        (1 <= fuel)%nat ->
        MQTTWorker.connect_with_retry (MQTTWorker.base (fst r)) connect_outcome
          (fun _ => MQTTWorker.running (MQTTWorker.base (fst r))) fuel = Some []).
Proof.
  unfold MQTTWorker.stop.
  destruct (MQTTWorker.running (MQTTWorker.base i)) eqn:Hr; cbn [fst snd].
  - cbn. repeat split. intros co [|fuel] Hf; [lia|reflexivity].
  - rewrite ?Hr. repeat split; try discriminate.
    intros co [|fuel] Hf; [lia|].
    reflexivity.
Qed.

Lemma stop_is_idempotent_witness :
  let i := MQTTWorker.mk_instance
             (MQTTWorker.mk_worker "plant" "192.168.1.173" 1883 true)
             ["tag1"%string; "tag2"%string] in
  (1 <= 3)%nat
  /\ MQTTWorker.subscribed_topics (fst (MQTTWorker.stop i)) = []
  /\ MQTTWorker.connect_with_retry (MQTTWorker.base (fst (MQTTWorker.stop i)))
       (fun _ => None)
       (fun _ => MQTTWorker.running (MQTTWorker.base (fst (MQTTWorker.stop i)))) 3
     = Some [].
Proof.
  intros i. split; [lia|].
  destruct (stop_is_idempotent i) as [_ [Hs [_ [_ Hc]]]].
  split; [exact (Hs eq_refl) | apply Hc; lia].
Defined.




(** ** Shape of the buffers along a run *)


Lemma group4_length stamps :
  List.length (Shape.group4 stamps) = (4 * List.length stamps)%nat.
Proof.
  unfold Shape.group4. induction stamps as [|t l IH]; [reflexivity|].
  cbn [flat_map]. rewrite length_app, repeat_length, IH. cbn [List.length]. lia.
Qed.

Lemma group4_app l l' :
  Shape.group4 (l ++ l') = Shape.group4 l ++ Shape.group4 l'.
Proof. apply flat_map_app. Qed.

Lemma group4_repeat (t : string) n :
  Shape.group4 (repeat t n) = repeat t (4 * n).
Proof.
  unfold Shape.group4. induction n as [|n IH]; [reflexivity|].
  change (repeat t (S n)) with ([t] ++ repeat t n).
  rewrite flat_map_app, IH.
  replace (4 * S n)%nat with (4 + 4 * n)%nat by lia.
  rewrite repeat_app. reflexivity.
Qed.

Lemma skipn_group4 k : forall stamps,
  skipn (4 * k) (Shape.group4 stamps) = Shape.group4 (skipn k stamps).
Proof.
  induction k as [|k IH]; intros stamps; [reflexivity|].
  destruct stamps as [|t l]; [reflexivity|].
  replace (4 * S k)%nat with (S (S (S (S (4 * k))))) by lia.
  cbn [Shape.group4 flat_map repeat app skipn]. apply IH.
Qed.

Lemma trim_group4 cap stamps :
  Deque.trim (cap * 4) (Shape.group4 stamps) = Shape.group4 (Deque.trim cap stamps).
Proof.
  unfold Deque.trim. rewrite group4_length, <- skipn_group4. f_equal. lia.
Qed.

Lemma demux_length k values g : List.length (Reference.demux k values g) = g.
Proof. unfold Reference.demux. now rewrite length_map, length_seq. Qed.

(** The invariant only looks at the two buffer fields. *)
Lemma aligned_ext st1 st2 :
  TimeViewFeature.time_view_buffers st1 = TimeViewFeature.time_view_buffers st2 ->
  TimeViewFeature.time_view_timestamps st1 = TimeViewFeature.time_view_timestamps st2 ->
  Shape.aligned st2 -> Shape.aligned st1.
Proof. unfold Shape.aligned. intros -> ->. exact (fun H => H). Qed.

Lemma aligned_extend st st' (g : nat) (t : string) x0 x1 x2 x3 :
  Shape.aligned st ->
  List.length x0 = g -> List.length x1 = g ->
  List.length x2 = g -> List.length x3 = g ->
  TimeViewFeature.time_view_buffers st' =
    TimeViewFeature.mk_buffers
      (Deque.extend (TimeViewFeature.buf0 (TimeViewFeature.time_view_buffers st)) x0)
      (Deque.extend (TimeViewFeature.buf1 (TimeViewFeature.time_view_buffers st)) x1)
      (Deque.extend (TimeViewFeature.buf2 (TimeViewFeature.time_view_buffers st)) x2)
      (Deque.extend (TimeViewFeature.buf3 (TimeViewFeature.time_view_buffers st)) x3) ->
  TimeViewFeature.time_view_timestamps st' =
    Deque.extend (TimeViewFeature.time_view_timestamps st) (repeat t (4 * g)) ->
  Shape.aligned st'.
Proof.
  unfold Shape.aligned.
  intros [Hcap [M1 [M2 [M3 [Mt [stamps [Hts [Hlen [L0 [L1 [L2 L3]]]]]]]]]]]
    G0 G1 G2 G3 Hb Ht.
  rewrite Hb, Ht. cbn [TimeViewFeature.buf0 TimeViewFeature.buf1
                        TimeViewFeature.buf2 TimeViewFeature.buf3].
  rewrite !maxlen_extend.
  set (cap := Deque.maxlen (TimeViewFeature.buf0 (TimeViewFeature.time_view_buffers st))) in *.
  repeat (split; [assumption|]).
  exists (Deque.trim cap (stamps ++ repeat t g)).
  rewrite !items_extend
    by (unfold Deque.wf; rewrite ?M1, ?M2, ?M3, ?Mt, ?Hts, ?group4_length; lia).
  rewrite M1, M2, M3, Mt, Hts, <- group4_repeat, <- group4_app, trim_group4.
  rewrite !trim_length, !length_app, repeat_length.
  repeat split; lia.
Qed.

Lemma aligned_split_and_store save st values timestamp :
  Shape.aligned st ->
  Shape.aligned (fst (TimeViewFeature.split_and_store_values save st values timestamp)).
Proof.
  intros H.
  destruct (split_and_store_buffers save st values timestamp) as [Hb Ht].
  eapply (aligned_extend st _ _ timestamp); eauto using demux_length.
Qed.

Lemma aligned_on_data_received save iso st tag values now :
  Shape.aligned st ->
  Shape.aligned (fst (TimeViewFeature.on_data_received save iso st tag values now)).
Proof.
  intros H. unfold TimeViewFeature.on_data_received.
  destruct (TimeViewFeature.other_tag _ _); [exact H|].
  apply aligned_split_and_store.
  destruct (TimeViewFeature.last_data_time st) as [last|]; [|exact H].
  destruct (PyFloat.gtb _ _); exact H.
Qed.

Lemma aligned_adjust st st' :
  TimeViewFeature.adjust_buffer_size st = Some st' ->
  Shape.aligned st -> Shape.aligned st'.
Proof.
  unfold TimeViewFeature.adjust_buffer_size.
  destruct (PyFloat.gtb _ _); [|intros [= <-]; auto].
  destruct (PyFloat.to_int _) as [n|]; [|discriminate].
  destruct (negb _); [|intros [= <-]; auto].
  intros [= <-]. unfold Shape.aligned.
  intros [Hcap [M1 [M2 [M3 [Mt [stamps [Hts [Hlen [L0 [L1 [L2 L3]]]]]]]]]]].
  cbn [TimeViewFeature.time_view_buffers TimeViewFeature.set_buffers
       TimeViewFeature.time_view_timestamps TimeViewFeature.resize_buffers
       TimeViewFeature.buf0 TimeViewFeature.buf1 TimeViewFeature.buf2
       TimeViewFeature.buf3].
  rewrite !maxlen_make, !items_make.
  split; [lia|]. repeat (split; [reflexivity|]).
  exists (Deque.trim (Z.max n 100) stamps).
  rewrite Hts, trim_group4, !trim_length. repeat split; lia.
Qed.

Lemma aligned_setup st tag :
  Shape.aligned st -> Shape.aligned (TimeViewFeature.setup_time_view_plot st tag).
Proof.
  intros H. unfold TimeViewFeature.setup_time_view_plot.
  destruct (_ || _); [exact H|].
  destruct H as [Hcap [M1 [M2 [M3 [Mt _]]]]].
  unfold Shape.aligned. cbn. repeat (split; [assumption|]).
  exists []. repeat split. cbn. lia.
Qed.

Lemma aligned_perform save iso st a :
  Shape.aligned st -> Shape.aligned (fst (TimeViewFeature.perform save iso st a)).
Proof.
  intros H. destruct a as [tag| | |tag values now|];
    cbn [TimeViewFeature.perform fst].
  - now apply aligned_setup.
  - unfold TimeViewFeature.start_saving.
    destruct (TimeViewFeature.invalid_tag _); exact H.
  - exact H.
  - now apply aligned_on_data_received.
  - destruct (TimeViewFeature.adjust_buffer_size st) as [st'|] eqn:E; [|exact H].
    exact (aligned_adjust st st' E H).
Qed.

Lemma run_step save iso st a rest :
  TimeViewFeature.run save iso st (a :: rest) =
  (fst (TimeViewFeature.run save iso (fst (TimeViewFeature.perform save iso st a)) rest),
   snd (TimeViewFeature.perform save iso st a)
   ++ snd (TimeViewFeature.run save iso (fst (TimeViewFeature.perform save iso st a)) rest)).
Proof.
  cbn [TimeViewFeature.run].
  destruct (TimeViewFeature.perform save iso st a) as [st1 e1]. cbn [fst snd].
  destruct (TimeViewFeature.run save iso st1 rest) as [st2 e2]. reflexivity.
Qed.

(** ** Recording state along a run *)

Lemma frames_app e1 e2 :
  TimeViewFeature.frames (e1 ++ e2) = TimeViewFeature.frames e1 ++ TimeViewFeature.frames e2.
Proof. apply flat_map_app. Qed.

(** The exact outcome of one consumed batch on the recording state. *)
Lemma split_and_store_saving save st values timestamp :
  let r := TimeViewFeature.split_and_store_values save st values timestamp in
  TimeViewFeature.project_name (fst r) = TimeViewFeature.project_name st
  /\ TimeViewFeature.start_save_enabled (fst r) = TimeViewFeature.start_save_enabled st
  /\ TimeViewFeature.stop_save_enabled (fst r) = TimeViewFeature.stop_save_enabled st
  /\ (TimeViewFeature.is_saving st = false ->
      snd r = [] /\ TimeViewFeature.frame_index (fst r) = TimeViewFeature.frame_index st)
  /\ (TimeViewFeature.is_saving st = true ->
      exists f,
        snd r = [TimeViewFeature.SaveTimeviewMessage (TimeViewFeature.project_name st) f]
        /\ TimeViewFeature.f_frameIndex f = TimeViewFeature.frame_index st
        /\ TimeViewFeature.f_topic f = TimeViewFeature.mqtt_tag st
        /\ TimeViewFeature.f_filename f
           = TimeViewFeature.filename_of (TimeViewFeature.filename_counter st)
        /\ (List.length (TimeViewFeature.f_message f) <= TimeViewFeature.max_values)%nat
        /\ TimeViewFeature.frame_index (fst r)
           = TimeViewFeature.frame_index st
             + (if fst (save (TimeViewFeature.project_name st) f) then 1 else 0)).
Proof.
  unfold TimeViewFeature.split_and_store_values.
  destruct (fold_left _ _ _) as [b ts].
  cbn [TimeViewFeature.is_saving TimeViewFeature.set_buffers
       TimeViewFeature.project_name TimeViewFeature.mqtt_tag
       TimeViewFeature.frame_index TimeViewFeature.data_rate
       TimeViewFeature.filename_counter].
  destruct (TimeViewFeature.is_saving st) eqn:Hs.
  - match goal with |- context [save ?p ?f] =>
      destruct (save p f) as [[|] msg] eqn:Hsave end;
      cbn [fst snd TimeViewFeature.project_name TimeViewFeature.start_save_enabled
           TimeViewFeature.stop_save_enabled TimeViewFeature.frame_index
           TimeViewFeature.set_frame_index TimeViewFeature.appendText
           TimeViewFeature.setText TimeViewFeature.set_buffers];
      (repeat (split; [reflexivity|])); (split; [discriminate|]); intros _;
      eexists; (split; [reflexivity|]);
      cbn [TimeViewFeature.f_frameIndex TimeViewFeature.f_topic
           TimeViewFeature.f_filename TimeViewFeature.f_message];
      rewrite Hsave; cbn [fst];
      (repeat (split; [reflexivity|])); (split; [|lia]);
      rewrite length_firstn;
      (etransitivity; [apply Nat.le_min_l | apply Nat.le_min_r]).
  - cbn [fst snd TimeViewFeature.project_name TimeViewFeature.start_save_enabled
           TimeViewFeature.stop_save_enabled TimeViewFeature.frame_index].
    repeat (split; [reflexivity|]). split; [intros _; split; reflexivity|discriminate].
Qed.

Lemma recording_ok_split_and_store save st values timestamp :
  Shape.recording_ok st ->
  Shape.recording_ok
    (fst (TimeViewFeature.split_and_store_values save st values timestamp))
  /\ Forall Shape.frame_ok
       (TimeViewFeature.frames
          (snd (TimeViewFeature.split_and_store_values save st values timestamp))).
Proof.
  intros [Hvalid [Htag [Hb1 [Hb2 [Hidx Hcnt]]]]].
  destruct (split_and_store_recording save st values timestamp) as [Hs [Hc [Ht _]]].
  destruct (split_and_store_saving save st values timestamp)
    as [_ [Hs1 [Hs2 [Hidle Hrec]]]].
  unfold Shape.recording_ok. rewrite Hs, Hc, Ht, Hs1, Hs2.
  destruct (TimeViewFeature.is_saving st) eqn:Hsav.
  - destruct (Hrec eq_refl) as [f [He [Hfi [Hft [Hfn [Hfl Hi]]]]]].
    rewrite He, Hi. split.
    + repeat (split; [assumption|]). split; [|assumption].
      clear Hfl. destruct (fst (save _ f)); lia.
    + constructor; [|constructor]. unfold Shape.frame_ok.
      rewrite Hfi, Hft, Hfn. split; [apply Hvalid; reflexivity|].
      split; [assumption|]. split; [|exact Hfl].
      exists (TimeViewFeature.filename_counter st). split; [assumption|reflexivity].
  - destruct (Hidle eq_refl) as [He Hi]. rewrite He, Hi. split.
    + repeat (split; [assumption|]). assumption.
    + constructor.
Qed.

Lemma recording_ok_perform save iso st a :
  Shape.recording_ok st ->
  Shape.recording_ok (fst (TimeViewFeature.perform save iso st a))
  /\ Forall Shape.frame_ok
       (TimeViewFeature.frames (snd (TimeViewFeature.perform save iso st a))).
Proof.
  intros H. pose proof H as [Hvalid [Htag [Hb1 [Hb2 [Hidx Hcnt]]]]].
  destruct a as [tag| | |tag values now|]; cbn [TimeViewFeature.perform].
  - split; [|constructor]. cbn [fst].
    unfold TimeViewFeature.setup_time_view_plot.
    destruct (negb (PyStr.truthy (TimeViewFeature.project_name st))); cbn [orb];
      [exact H|].
    destruct (PyStr.truthy tag) eqn:Htr; cbn [negb orb]; [|exact H].
    destruct (String.eqb tag TimeViewFeature.no_tags) eqn:Hno; [exact H|].
    unfold Shape.recording_ok. cbn. rewrite Htr, Hno. cbn.
    repeat split; auto; try lia; discriminate.
  - unfold TimeViewFeature.start_saving.
    destruct (TimeViewFeature.invalid_tag (TimeViewFeature.mqtt_tag st)) eqn:Hinv;
      cbn [fst snd]; (split; [|constructor]); [exact H|].
    unfold Shape.recording_ok. cbn. repeat split; auto; lia.
  - cbn [TimeViewFeature.stop_saving fst snd]. split; [|constructor].
    unfold Shape.recording_ok. cbn. repeat split; auto; try lia; discriminate.
  - unfold TimeViewFeature.on_data_received.
    destruct (TimeViewFeature.other_tag _ _); [split; [exact H|constructor]|].
    apply recording_ok_split_and_store.
    destruct (TimeViewFeature.last_data_time st) as [last|]; [|exact H].
    destruct (PyFloat.gtb _ _); exact H.
  - destruct (TimeViewFeature.adjust_buffer_size st) as [st'|] eqn:E;
      cbn [fst snd]; (split; [|constructor]); [|exact H].
    unfold TimeViewFeature.adjust_buffer_size in E.
    destruct (PyFloat.gtb _ _); [|injection E as <-; exact H].
    destruct (PyFloat.to_int _) as [n|]; [|discriminate].
    destruct (negb (Z.eqb _ _)); injection E as <-; exact H.
Qed.

Lemma run_invariants save iso : forall actions st,
  Shape.aligned st -> Shape.recording_ok st ->
  Shape.aligned (fst (TimeViewFeature.run save iso st actions))
  /\ Shape.recording_ok (fst (TimeViewFeature.run save iso st actions))
  /\ Forall Shape.frame_ok
       (TimeViewFeature.frames (snd (TimeViewFeature.run save iso st actions))).
Proof.
  induction actions as [|a rest IH]; intros st Ha Hr.
  - cbn [TimeViewFeature.run fst snd TimeViewFeature.frames flat_map].
    split; [exact Ha|]. split; [exact Hr|constructor].
  - rewrite run_step. cbn [fst snd].
    destruct (recording_ok_perform save iso st a Hr) as [Hr1 Hf1].
    destruct (IH _ (aligned_perform save iso st a Ha) Hr1) as [Ha2 [Hr2 Hf2]].
    split; [exact Ha2|]. split; [exact Hr2|].
    rewrite frames_app. apply Forall_app. split; assumption.
Qed.

Lemma init_invariants project :
  Shape.aligned (TimeViewFeature.init project)
  /\ Shape.recording_ok (TimeViewFeature.init project).
Proof.
  split.
  - unfold Shape.aligned, TimeViewFeature.init.
    cbn [TimeViewFeature.time_view_buffers TimeViewFeature.time_view_timestamps
         TimeViewFeature.buf0 TimeViewFeature.buf1 TimeViewFeature.buf2
         TimeViewFeature.buf3 Deque.maxlen Deque.items].
    split; [unfold TimeViewFeature.initial_buffer_size; lia|].
    do 4 (split; [reflexivity|]).
    exists []. repeat split. apply Nat.le_0_l.
  - unfold Shape.recording_ok. cbn. repeat split; auto; try lia; discriminate.
Qed.

(** X1. The buffers keep their shape along every run: whatever sequence of
    tag selections, start/stop requests, received messages and resize checks
    is applied, the four channel buffers have one capacity (at least 100)
    and one length within it, and the timestamp buffer has four times that
    capacity and holds one timestamp, written four times, per channel
    position. The initial state has this shape. *)
Theorem run_keeps_buffers_aligned
    (save : string -> TimeViewFeature.frame -> bool * string)
    (isoformat : Z -> string) (project : string) :
  Shape.aligned (TimeViewFeature.init project)
  /\ forall st actions,
       Shape.aligned st ->
       Shape.aligned (fst (TimeViewFeature.run save isoformat st actions)).
Proof.
  split; [apply init_invariants|].
  intros st actions. revert st.
  induction actions as [|a rest IH]; intros st Ha; [exact Ha|].
  rewrite run_step. cbn [fst]. apply IH, aligned_perform, Ha.
Qed.

Lemma run_keeps_buffers_aligned_witness :
  let save := fun (_ : string) (_ : TimeViewFeature.frame) => (true, "ok"%string) in
  let st := fst (TimeViewFeature.run save (fun _ => "t"%string)
                   (TimeViewFeature.init "plant")
                   [TimeViewFeature.Select "tag1";
                    TimeViewFeature.Receive "tag1" [1; 2; 3; 4; 5; 6; 7; 8; 9] 0;
                    TimeViewFeature.Resize]) in
  Shape.aligned st
  /\ List.length (Deque.items (TimeViewFeature.time_view_timestamps st)) = 8%nat.
Proof.
  intros save st. split; [|reflexivity].
  destruct (run_keeps_buffers_aligned save (fun _ => "t"%string) "plant")
    as [Hinit Hrun].
  apply Hrun. exact Hinit.
Defined.

(** X2. The recording state stays consistent along every run: recording is
    on only while a valid tag is selected, the selected tag is absent or
    valid, the start and stop buttons mirror the recording flag, the frame
    index is never negative and the file-name counter never below 1. *)
Theorem run_keeps_recording_consistent
    (save : string -> TimeViewFeature.frame -> bool * string)
    (isoformat : Z -> string) (project : string) :
  Shape.recording_ok (TimeViewFeature.init project)
  /\ forall st actions,
       Shape.recording_ok st ->
       Shape.recording_ok (fst (TimeViewFeature.run save isoformat st actions)).
Proof.
  split; [apply init_invariants|].
  intros st actions. revert st.
  induction actions as [|a rest IH]; intros st Hr; [exact Hr|].
  rewrite run_step. cbn [fst]. apply IH, recording_ok_perform, Hr.
Qed.

Lemma run_keeps_recording_consistent_witness :
  let save := fun (_ : string) (_ : TimeViewFeature.frame) => (true, "ok"%string) in
  let st := fst (TimeViewFeature.run save (fun _ => "t"%string)
                   (TimeViewFeature.init "plant")
                   [TimeViewFeature.StartSaving; TimeViewFeature.Select "tag1";
                    TimeViewFeature.StartSaving]) in
  Shape.recording_ok st /\ TimeViewFeature.is_saving st = true.
Proof.
  intros save st. split; [|reflexivity].
  destruct (run_keeps_recording_consistent save (fun _ => "t"%string) "plant")
    as [Hinit Hrun].
  apply Hrun. exact Hinit.
Defined.

(** X3. Every frame handed to the storage collaborator during a run that
    starts in a consistent state carries a valid topic, a non-negative frame
    index, a name [data<n>] with [n >= 1] and at most [4096*4] values. *)
Theorem run_frames_well_formed
    (save : string -> TimeViewFeature.frame -> bool * string)
    (isoformat : Z -> string)
    (st : TimeViewFeature.state) (actions : list TimeViewFeature.action) :
  Shape.recording_ok st ->
  Forall Shape.frame_ok
    (TimeViewFeature.frames (snd (TimeViewFeature.run save isoformat st actions))).
Proof.
  revert st. induction actions as [|a rest IH]; intros st Hr; [constructor|].
  rewrite run_step. cbn [snd]. rewrite frames_app. apply Forall_app.
  destruct (recording_ok_perform save isoformat st a Hr) as [Hr1 Hf1].
  split; [exact Hf1 | apply IH, Hr1].
Qed.

Lemma run_frames_well_formed_witness :
  let save := fun (_ : string) (_ : TimeViewFeature.frame) => (true, "ok"%string) in
  let r := TimeViewFeature.run save (fun _ => "t"%string)
             (TimeViewFeature.init "plant")
             [TimeViewFeature.Select "tag1"; TimeViewFeature.StartSaving;
              TimeViewFeature.Receive "tag1" [1; 2; 3; 4; 5] 0;
              TimeViewFeature.Receive "tag1" [6; 7; 8; 9] 1000000] in
  List.length (TimeViewFeature.frames (snd r)) = 2%nat
  /\ Forall Shape.frame_ok (TimeViewFeature.frames (snd r)).
Proof.
  intros save r. split; [reflexivity|].
  apply run_frames_well_formed.
  unfold Shape.recording_ok. cbn. repeat split; auto; try lia; discriminate.
Defined.

(** X4. On buffers of the regular shape a consumed batch leaves in each
    channel buffer the most recent [capacity] elements of its old contents
    followed by the new channel values, so its length is
    [min(old length + groups, capacity)]; likewise for the timestamps. *)
Theorem split_and_store_values_ring
    (save : string -> TimeViewFeature.frame -> bool * string)
    (st : TimeViewFeature.state) (values : list Z) (timestamp : string) :
  Shape.aligned st ->
  let floats := map PyFloat.of_int values in
  let g := Reference.complete_groups (List.length values) in
  let b := TimeViewFeature.time_view_buffers st in
  let cap := Deque.maxlen (TimeViewFeature.buf0 b) in
  let st' := fst (TimeViewFeature.split_and_store_values save st values timestamp) in
  let b' := TimeViewFeature.time_view_buffers st' in
  map Deque.items
      [TimeViewFeature.buf0 b'; TimeViewFeature.buf1 b';
       TimeViewFeature.buf2 b'; TimeViewFeature.buf3 b']
  = [Deque.trim cap (Deque.items (TimeViewFeature.buf0 b) ++ Reference.demux 0 floats g);
     Deque.trim cap (Deque.items (TimeViewFeature.buf1 b) ++ Reference.demux 1 floats g);
     Deque.trim cap (Deque.items (TimeViewFeature.buf2 b) ++ Reference.demux 2 floats g);
     Deque.trim cap (Deque.items (TimeViewFeature.buf3 b) ++ Reference.demux 3 floats g)]
  /\ Deque.items (TimeViewFeature.time_view_timestamps st')
     = Deque.trim (cap * 4)
         (Deque.items (TimeViewFeature.time_view_timestamps st)
          ++ repeat timestamp (4 * g))
  /\ List.length (Deque.items (TimeViewFeature.buf0 b'))
     = Nat.min (List.length (Deque.items (TimeViewFeature.buf0 b)) + g) (Z.to_nat cap).
Proof.
  intros Hal floats g b cap st' b'.
  destruct (split_and_store_buffers save st values timestamp) as [Hb Ht].
  fold floats g st' in Hb, Ht. fold b' b in Hb. subst b'. rewrite Hb, Ht.
  destruct Hal as [Hcap [M1 [M2 [M3 [Mt [stamps [Hts [Hlen [L0 [L1 [L2 L3]]]]]]]]]]].
  fold b cap in Hcap, M1, M2, M3, Mt, Hlen, L0, L1, L2, L3.
  cbn [map TimeViewFeature.buf0 TimeViewFeature.buf1 TimeViewFeature.buf2
       TimeViewFeature.buf3].
  rewrite !items_extend
    by (unfold Deque.wf; fold cap;
        rewrite ?M1, ?M2, ?M3, ?Mt, ?Hts, ?group4_length; lia).
  fold cap. rewrite M1, M2, M3, Mt.
  split; [reflexivity|]. split; [reflexivity|].
  rewrite trim_length, length_app. unfold Reference.demux.
  now rewrite length_map, length_seq.
Qed.

Lemma split_and_store_values_ring_witness :
  let save := fun (_ : string) (_ : TimeViewFeature.frame) => (true, "ok"%string) in
  let st := fst (TimeViewFeature.run save (fun _ => "t"%string)
                   (TimeViewFeature.init "plant")
                   [TimeViewFeature.Select "tag1";
                    TimeViewFeature.Receive "tag1" [1; 2; 3; 4] 0]) in
  let st' := fst (TimeViewFeature.split_and_store_values save st
                    [5; 6; 7; 8; 9; 10; 11; 12] "t2") in
  Shape.aligned st
  /\ List.length (Deque.items (TimeViewFeature.buf0 (TimeViewFeature.time_view_buffers st')))
     = 3%nat.
Proof.
  intros save st st'.
  assert (Hal : Shape.aligned st).
  { apply (run_invariants save (fun _ => "t"%string)
             [TimeViewFeature.Select "tag1";
              TimeViewFeature.Receive "tag1" [1; 2; 3; 4] 0]
             (TimeViewFeature.init "plant")); apply init_invariants. }
  split; [exact Hal|].
  destruct (split_and_store_values_ring save st [5; 6; 7; 8; 9; 10; 11; 12] "t2" Hal)
    as [_ [_ Hlen]].
  exact Hlen.
Defined.

(** X5. While recording, a run of batches submits one frame per batch; the
    index of each frame is the starting index plus the number of earlier
    frames of the run that the storage accepted, and the final frame index
    is the starting index plus the number of accepted frames. A rejected
    frame's index is therefore used again by the next frame. *)
Lemma stored_cons save project f fs :
  Shape.stored save project (f :: fs)
  = ((if fst (save project f) then 1 else 0) + Shape.stored save project fs)%nat.
Proof.
  unfold Shape.stored. cbn [filter]. destruct (fst (save project f)); reflexivity.
Qed.

Theorem consume_frame_indices
    (save : string -> TimeViewFeature.frame -> bool * string) :
  forall (batches : list (list Z * string)) (st : TimeViewFeature.state),
  TimeViewFeature.is_saving st = true ->
  let r := TimeViewFeature.consume save st batches in
  let fs := TimeViewFeature.frames (snd r) in
  let project := TimeViewFeature.project_name st in
  List.length fs = List.length batches
  /\ (forall k f, nth_error fs k = Some f ->
        TimeViewFeature.f_frameIndex f
        = TimeViewFeature.frame_index st
          + Z.of_nat (Shape.stored save project (firstn k fs)))
  /\ TimeViewFeature.frame_index (fst r)
     = TimeViewFeature.frame_index st + Z.of_nat (Shape.stored save project fs).
Proof.
  induction batches as [|[values timestamp] rest IH]; intros st Hs.
  - cbn. split; [reflexivity|]. split; [|lia].
    intros [|k] f H; discriminate.
  - cbn [TimeViewFeature.consume].
    destruct (split_and_store_recording save st values timestamp) as [Hs1 _].
    destruct (split_and_store_saving save st values timestamp)
      as [Hp [_ [_ [_ Hrec]]]].
    destruct (Hrec Hs) as [f0 [He [Hfi [_ [_ [_ Hi]]]]]].
    destruct (TimeViewFeature.split_and_store_values save st values timestamp)
      as [st1 e1].
    cbn [fst snd] in *. subst e1.
    specialize (IH st1 ltac:(congruence)).
    destruct (TimeViewFeature.consume save st1 rest) as [st2 e2].
    cbn [fst snd] in *. rewrite Hp in IH. destruct IH as [Hlen [Hk Hend]].
    cbn [app TimeViewFeature.frames flat_map].
    fold (TimeViewFeature.frames e2).
    split; [cbn [List.length]; now rewrite Hlen|]. split.
    + intros [|k] f Hnth.
      * injection Hnth as <-. cbn. lia.
      * cbn [nth_error] in Hnth. cbn [firstn]. rewrite stored_cons.
        rewrite (Hk k f Hnth), Hi.
        destruct (fst (save _ f0)); lia.
    + rewrite stored_cons, Hend, Hi. destruct (fst (save _ f0)); lia.
Qed.

Lemma consume_frame_indices_witness :
  let save := fun (_ : string) (f : TimeViewFeature.frame) =>
                (negb (TimeViewFeature.f_createdAt f =? "t2")%string, ""%string) in
  let st := fst (TimeViewFeature.start_saving
                   (TimeViewFeature.setup_time_view_plot
                      (TimeViewFeature.init "plant") "tag1")) in
  let r := TimeViewFeature.consume save st
             [([1; 2; 3; 4], "t1"%string); ([1; 2; 3; 4], "t2"%string);
              ([1; 2; 3; 4], "t3"%string)] in
  TimeViewFeature.is_saving st = true
  /\ map TimeViewFeature.f_frameIndex (TimeViewFeature.frames (snd r)) = [0; 1; 1]
  /\ TimeViewFeature.frame_index (fst r) = 2.
Proof.
  intros save st r. split; [reflexivity|]. split; [reflexivity|].
  destruct (consume_frame_indices save
              [([1; 2; 3; 4], "t1"%string); ([1; 2; 3; 4], "t2"%string);
               ([1; 2; 3; 4], "t3"%string)] st eq_refl) as [_ [_ Hend]].
  exact Hend.
Defined.

(** X6. Selecting a valid tag ends a recording without touching the
    file-name counter: the session started afterwards begins again at frame
    index 0 and writes under the very file name used by the frames consumed
    before the switch. *)
Theorem tag_switch_reuses_filename
    (save : string -> TimeViewFeature.frame -> bool * string)
    (st : TimeViewFeature.state) (tag : string)
    (before after : list (list Z * string)) :
  PyStr.truthy (TimeViewFeature.project_name st) = true ->
  PyStr.truthy tag = true ->
  String.eqb tag TimeViewFeature.no_tags = false ->
  let c := TimeViewFeature.filename_counter st in
  let same_name := fun f =>
    TimeViewFeature.f_filename f = TimeViewFeature.filename_of c in
  let st' := TimeViewFeature.setup_time_view_plot st tag in
  TimeViewFeature.is_saving st' = false
  /\ TimeViewFeature.mqtt_tag st' = Some tag
  /\ TimeViewFeature.filename_counter st' = c
  /\ TimeViewFeature.frame_index (fst (TimeViewFeature.start_saving st')) = 0
  /\ Forall same_name
       (TimeViewFeature.frames (snd (TimeViewFeature.consume save st before)))
  /\ Forall same_name
       (TimeViewFeature.frames (snd (TimeViewFeature.session save st' after))).
Proof.
  intros Hp Ht Hn c same_name st'.
  assert (Hst' : TimeViewFeature.is_saving st' = false
                 /\ TimeViewFeature.mqtt_tag st' = Some tag
                 /\ TimeViewFeature.filename_counter st' = c).
  { subst st'. unfold TimeViewFeature.setup_time_view_plot.
    rewrite Hp, Ht, Hn. cbn. repeat split. }
  destruct Hst' as [Hs [Hm Hc]].
  assert (Hvalid : TimeViewFeature.invalid_tag (TimeViewFeature.mqtt_tag st') = false).
  { rewrite Hm. cbn [TimeViewFeature.invalid_tag]. now rewrite Ht, Hn. }
  repeat (split; [assumption|]). split; [|split].
  - unfold TimeViewFeature.start_saving. rewrite Hvalid. reflexivity.
  - apply consume_recording.
  - destruct (session_recording save st' after Hvalid) as [_ [_ [_ Hf]]].
    rewrite Hc in Hf. exact Hf.
Qed.

Lemma tag_switch_reuses_filename_witness :
  let save := fun (_ : string) (_ : TimeViewFeature.frame) => (true, "ok"%string) in
  let st := fst (TimeViewFeature.start_saving
                   (TimeViewFeature.setup_time_view_plot
                      (TimeViewFeature.init "plant") "tag1")) in
  let first := TimeViewFeature.consume save st [([1; 2; 3; 4], "t1"%string)] in
  let second := TimeViewFeature.session save
                  (TimeViewFeature.setup_time_view_plot (fst first) "tag2")
                  [([5; 6; 7; 8], "t2"%string)] in
  map (fun f => (TimeViewFeature.f_filename f, TimeViewFeature.f_frameIndex f))
      (TimeViewFeature.frames (snd first) ++ TimeViewFeature.frames (snd second))
  = [("data1"%string, 0); ("data1"%string, 0)]
  /\ Forall (fun f => TimeViewFeature.f_filename f = TimeViewFeature.filename_of 1)
            (TimeViewFeature.frames (snd second)).
Proof.
  intros save st first second. split; [reflexivity|].
  destruct (tag_switch_reuses_filename save (fst first) "tag2" []
              [([5; 6; 7; 8], "t2"%string)] eq_refl eq_refl eq_refl)
    as [_ [_ [_ [_ [_ H]]]]].
  exact H.
Defined.

(** X7. The resize check is idempotent: run a second time on its own
    result it changes nothing. It never changes the rate, and when it does
    change the state the new capacity is at least 100. *)
Theorem adjust_buffer_size_idempotent (st st' : TimeViewFeature.state) :
  TimeViewFeature.adjust_buffer_size st = Some st' ->
  TimeViewFeature.adjust_buffer_size st' = Some st'
  /\ TimeViewFeature.data_rate st' = TimeViewFeature.data_rate st
  /\ (st' = st
      \/ 100 <= Deque.maxlen (TimeViewFeature.buf0 (TimeViewFeature.time_view_buffers st'))).
Proof.
  unfold TimeViewFeature.adjust_buffer_size at 1.
  destruct (PyFloat.gtb (TimeViewFeature.data_rate st) (PyFloat.of_int 0)) eqn:Hr.
  - destruct (PyFloat.to_int _) as [n|] eqn:Hn; [|discriminate].
    destruct (Z.eqb_spec (Z.max n 100)
                (Deque.maxlen (TimeViewFeature.buf0 (TimeViewFeature.time_view_buffers st))))
      as [E|E]; cbn [negb]; intros [= <-].
    + unfold TimeViewFeature.adjust_buffer_size. rewrite Hr, Hn.
      rewrite (proj2 (Z.eqb_eq _ _) E). auto.
    + unfold TimeViewFeature.adjust_buffer_size.
      cbn [TimeViewFeature.data_rate TimeViewFeature.set_buffers
           TimeViewFeature.time_view_buffers TimeViewFeature.resize_buffers
           TimeViewFeature.buf0].
      rewrite Hr, Hn, maxlen_make, Z.eqb_refl. cbn [negb].
      split; [reflexivity|]. split; [reflexivity|]. right. lia.
  - intros [= <-]. unfold TimeViewFeature.adjust_buffer_size. rewrite Hr. auto.
Qed.

Lemma adjust_buffer_size_idempotent_witness :
  let st := TimeViewFeature.set_data_rate (TimeViewFeature.init "plant")
              (PyFloat.of_int 200) in
  exists st',
    TimeViewFeature.adjust_buffer_size st = Some st'
    /\ TimeViewFeature.adjust_buffer_size st' = Some st'
    /\ Deque.maxlen (TimeViewFeature.buf0 (TimeViewFeature.time_view_buffers st')) = 400.
Proof.
  intros st.
  destruct (TimeViewFeature.adjust_buffer_size st) as [st'|] eqn:E;
    [|vm_compute in E; discriminate].
  exists st'. split; [reflexivity|].
  destruct (adjust_buffer_size_idempotent st st' E) as [H _].
  split; [exact H|]. vm_compute in E. injection E as <-. reflexivity.
Defined.

(** X8. On buffers of the regular shape the display window holds, for
    each of the four channels, the same number of values,
    [min(length, samples_per_window)], and exactly as many timestamps: the
    last [samples_per_window] of the per-position timestamps.
    [samples_per_window] is never below 2. *)
Lemma every_fourth_group4 stamps :
  TimeViewFeature.every_fourth (Shape.group4 stamps) = stamps.
Proof.
  induction stamps as [|t l IH]; [reflexivity|].
  cbn [Shape.group4 flat_map repeat app TimeViewFeature.every_fourth].
  f_equal. exact IH.
Qed.

Lemma slice_from_last {A} (n : Z) (l : list A) :
  0 < n -> TimeViewFeature.slice_from (- n) l = Deque.trim n l.
Proof.
  intros Hn. unfold TimeViewFeature.slice_from, Deque.trim.
  destruct (Z.ltb_spec (- n) 0); [|lia]. now rewrite Z.opp_involutive.
Qed.

Lemma samples_per_window_bounds size rate spw :
  TimeViewFeature.samples_per_window size rate = Some spw ->
  2 <= spw /\ (2 <= size -> spw <= size).
Proof.
  unfold TimeViewFeature.samples_per_window.
  destruct (PyFloat.to_int _) as [r|]; [|discriminate].
  intros [= <-]. destruct (Z.ltb_spec (Z.min size r) 2); lia.
Qed.

Theorem window_timestamps_match_values
    (st : TimeViewFeature.state) (current_buffer_size spw : Z) :
  Shape.aligned st ->
  TimeViewFeature.samples_per_window current_buffer_size (TimeViewFeature.data_rate st)
    = Some spw ->
  let b := TimeViewFeature.time_view_buffers st in
  let ts := TimeViewFeature.time_view_timestamps st in
  let shown := Nat.min (List.length (Deque.items (TimeViewFeature.buf0 b)))
                       (Z.to_nat spw) in
  2 <= spw
  /\ map (fun d => List.length (TimeViewFeature.window_values d spw))
         [TimeViewFeature.buf0 b; TimeViewFeature.buf1 b;
          TimeViewFeature.buf2 b; TimeViewFeature.buf3 b]
     = [shown; shown; shown; shown]
  /\ List.length (TimeViewFeature.window_timestamps ts spw) = shown
  /\ exists stamps,
       Deque.items ts = Shape.group4 stamps
       /\ TimeViewFeature.window_timestamps ts spw = Deque.trim spw stamps.
Proof.
  intros Hal Hspw b ts shown.
  destruct (samples_per_window_bounds _ _ _ Hspw) as [H2 _].
  destruct Hal as [Hcap [M1 [M2 [M3 [Mt [stamps [Hts [Hlen [L0 [L1 [L2 L3]]]]]]]]]]].
  fold b ts in Hts, L0, L1, L2, L3.
  assert (Hw : TimeViewFeature.window_timestamps ts spw = Deque.trim spw stamps).
  { unfold TimeViewFeature.window_timestamps.
    rewrite slice_from_last by lia. rewrite Hts, trim_group4.
    apply every_fourth_group4. }
  split; [exact H2|]. split; [|split].
  - unfold TimeViewFeature.window_values. cbn [map].
    rewrite !slice_from_last by lia. rewrite !trim_length.
    subst shown. rewrite L0, L1, L2, L3. reflexivity.
  - rewrite Hw, trim_length. subst shown. now rewrite L0.
  - exists stamps. split; [exact Hts | exact Hw].
Qed.

Lemma window_timestamps_match_values_witness :
  let save := fun (_ : string) (_ : TimeViewFeature.frame) => (true, "ok"%string) in
  let st := fst (TimeViewFeature.run save
                   (fun now => if now =? 0 then "t0"%string else "t1"%string)
                   (TimeViewFeature.init "plant")
                   [TimeViewFeature.Select "tag1";
                    TimeViewFeature.Receive "tag1" [1; 2; 3; 4; 5; 6; 7; 8] 0;
                    TimeViewFeature.Receive "tag1" [9; 10; 11; 12] 500000]) in
  TimeViewFeature.samples_per_window 3 (TimeViewFeature.data_rate st) = Some 2
  /\ TimeViewFeature.window_timestamps (TimeViewFeature.time_view_timestamps st) 2
     = ["t0"%string; "t1"%string]
  /\ List.length (TimeViewFeature.window_timestamps
                    (TimeViewFeature.time_view_timestamps st) 2) = 2%nat.
Proof.
  intros save st. split; [reflexivity|]. split; [reflexivity|].
  assert (Hal : Shape.aligned st).
  { apply (run_invariants save
             (fun now => if now =? 0 then "t0"%string else "t1"%string)
             [TimeViewFeature.Select "tag1";
              TimeViewFeature.Receive "tag1" [1; 2; 3; 4; 5; 6; 7; 8] 0;
              TimeViewFeature.Receive "tag1" [9; 10; 11; 12] 500000]
             (TimeViewFeature.init "plant")); apply init_invariants. }
  destruct (window_timestamps_match_values st 3 2 Hal eq_refl) as [_ [_ [H _]]].
  exact H.
Defined.

(** ** Demultiplexing loses nothing *)

Lemma demux_succ k values g :
  Reference.demux k values (S g)
  = nth k values (S754_zero false) :: Reference.demux k (skipn 4 values) g.
Proof.
  unfold Reference.demux. cbn [seq map]. rewrite Nat.mul_0_r. cbn [Nat.add].
  f_equal. rewrite <- seq_shift, map_map. apply map_ext. intros j.
  replace (4 * S j + k)%nat with (4 + (4 * j + k))%nat by lia.
  generalize (4 * j + k)%nat. intros n.
  destruct values as [|a [|b [|c [|d rest]]]]; cbn [skipn Nat.add nth];
    try reflexivity; destruct n; reflexivity.
Qed.

Lemma interleave_demux : forall g values,
  (4 * g <= List.length values)%nat ->
  Shape.interleave (Reference.demux 0 values g) (Reference.demux 1 values g)
                   (Reference.demux 2 values g) (Reference.demux 3 values g)
  = firstn (4 * g) values.
Proof.
  induction g as [|g IH]; intros values Hlen; [reflexivity|].
  rewrite !demux_succ. cbn [Shape.interleave].
  destruct values as [|a [|b [|c [|d rest]]]]; cbn [List.length] in Hlen; try lia.
  replace (4 * S g)%nat with (S (S (S (S (4 * g))))) by lia.
  cbn [nth skipn firstn]. rewrite IH by (cbn [List.length] in *; lia).
  reflexivity.
Qed.

(** X17. Demultiplexing loses and reorders nothing: on empty buffers that
    can hold the batch, taking one value of each channel buffer in turn gives
    back the first [4 * groups] input values, converted to floats. *)
Theorem split_and_store_values_lossless
    (save : string -> TimeViewFeature.frame -> bool * string)
    (st : TimeViewFeature.state) (values : list Z) (timestamp : string) :
  Shape.aligned st ->
  Deque.items (TimeViewFeature.time_view_timestamps st) = [] ->
  let b := TimeViewFeature.time_view_buffers st in
  let g := Reference.complete_groups (List.length values) in
  (g <= Z.to_nat (Deque.maxlen (TimeViewFeature.buf0 b)))%nat ->
  let b' := TimeViewFeature.time_view_buffers
              (fst (TimeViewFeature.split_and_store_values save st values timestamp)) in
  Shape.interleave (Deque.items (TimeViewFeature.buf0 b'))
                   (Deque.items (TimeViewFeature.buf1 b'))
                   (Deque.items (TimeViewFeature.buf2 b'))
                   (Deque.items (TimeViewFeature.buf3 b'))
  = map PyFloat.of_int (firstn (4 * g) values).
Proof.
  intros Hal Hempty b g Hfit b'.
  destruct (split_and_store_buffers save st values timestamp) as [Hb _].
  fold g b in Hb. subst b'. rewrite Hb.
  destruct Hal as [Hcap [M1 [M2 [M3 [Mt [stamps [Hts [Hlen [L0 [L1 [L2 L3]]]]]]]]]]].
  fold b in Hcap, M1, M2, M3, L0, L1, L2, L3.
  assert (Hs : stamps = []).
  { rewrite Hts in Hempty. destruct stamps; [reflexivity|discriminate]. }
  subst stamps. cbn [List.length] in L0, L1, L2, L3.
  apply length_zero_iff_nil in L0, L1, L2, L3.
  cbn [TimeViewFeature.buf0 TimeViewFeature.buf1 TimeViewFeature.buf2
       TimeViewFeature.buf3].
  rewrite !items_extend
    by (unfold Deque.wf; rewrite ?L0, ?L1, ?L2, ?L3; apply Nat.le_0_l).
  rewrite L0, L1, L2, L3, M1, M2, M3. cbn [app].
  rewrite !trim_short
    by (unfold Reference.demux; rewrite length_map, length_seq; exact Hfit).
  rewrite interleave_demux, firstn_map; [reflexivity|].
  rewrite length_map. subst g. unfold Reference.complete_groups.
  pose proof (Nat.div_mod_eq (Nat.min (List.length values) (4096 * 4)) 4).
  pose proof (Nat.mod_upper_bound (Nat.min (List.length values) (4096 * 4)) 4).
  lia.
Qed.

Lemma split_and_store_values_lossless_witness :
  let save := fun (_ : string) (_ : TimeViewFeature.frame) => (true, "ok"%string) in
  let st := TimeViewFeature.setup_time_view_plot (TimeViewFeature.init "plant") "tag1" in
  let b' := TimeViewFeature.time_view_buffers
              (fst (TimeViewFeature.split_and_store_values save st
                      [11; 12; 13; 14; 21; 22; 23; 24; 31] "t")) in
  Shape.aligned st
  /\ Shape.interleave (Deque.items (TimeViewFeature.buf0 b'))
                      (Deque.items (TimeViewFeature.buf1 b'))
                      (Deque.items (TimeViewFeature.buf2 b'))
                      (Deque.items (TimeViewFeature.buf3 b'))
     = map PyFloat.of_int [11; 12; 13; 14; 21; 22; 23; 24].
Proof.
  intros save st b'.
  assert (Hal : Shape.aligned st) by (apply aligned_setup, init_invariants).
  split; [exact Hal|].
  apply (split_and_store_values_lossless save st
           [11; 12; 13; 14; 21; 22; 23; 24; 31] "t" Hal eq_refl).
  vm_compute. lia.
Defined.
